(** * LegisWatch: the bill aggregator, summary enrichment and CSV export

    A shallow embedding of [app.py] (class [BillTracker], [get_llm_summary],
    [api_export]) and the properties its specification states about them.

    Conventions of the embedding.
    - A Python value that comes out of [response.json()] or of
      [request.get_json()] is a [pyval]; a dict is an association list in
      insertion order, looked up from the front.
    - A Python [str] is the [string] of its UTF-8 bytes (a surrogate code
      point as its three bytes ED A0..BF 80..BF): equality, concatenation
      and the substring test are those of the bytes, [len] counts the bytes
      that start a character.  The methods that follow the Unicode database
      ([upper], [lower], [title], [strip], [repr]) are written out for
      ASCII strings; on any other string they are the functions of a
      [Unicode] instance, of which nothing is assumed but that an upper-cased
      string is its own upper case.
    - A Python exception is a constructor of [exn]; code that may raise
      returns a [Result].
    - The network is an oracle [World]: the [n]-th request of a run, with
      its URL, is answered by a response or by an exception.  Code that
      talks to the network threads the request counter. *)

From Stdlib Require Import String Ascii List ZArith Lia Bool DecimalString.
Import ListNotations.
Open Scope string_scope.
Set Warnings "-register-all".

(** ** Python strings *)

Module PyStr.

Definition is_upper (c : ascii) : bool :=
  let n := nat_of_ascii c in (65 <=? n)%nat && (n <=? 90)%nat.

Definition is_lower (c : ascii) : bool :=
  let n := nat_of_ascii c in (97 <=? n)%nat && (n <=? 122)%nat.

Definition to_upper (c : ascii) : ascii :=
  if is_lower c then ascii_of_nat (nat_of_ascii c - 32) else c.

Definition to_lower (c : ascii) : ascii :=
  if is_upper c then ascii_of_nat (nat_of_ascii c + 32) else c.

(** [str.isspace] on one ASCII character: TAB..CR, FS..US and the blank. *)
Definition is_space (c : ascii) : bool :=
  let n := nat_of_ascii c in
  ((9 <=? n)%nat && (n <=? 13)%nat) || ((28 <=? n)%nat && (n <=? 32)%nat).

Fixpoint smap (f : ascii -> ascii) (s : string) : string :=
  match s with
  | EmptyString => EmptyString
  | String c t => String (f c) (smap f t)
  end.

(** Every character of the string is an ASCII character. *)
Fixpoint is_ascii (s : string) : bool :=
  match s with
  | EmptyString => true
  | String c t => (nat_of_ascii c <? 128)%nat && is_ascii t
  end.

(** A byte that continues a character: 80..BF. *)
Definition is_continuation (c : ascii) : bool :=
  let n := nat_of_ascii c in (128 <=? n)%nat && (n <? 192)%nat.

(** [len(s)]: the characters of the string, one for every byte that does
    not continue one. *)
Fixpoint len (s : string) : nat :=
  match s with
  | EmptyString => 0
  | String c t => (if is_continuation c then 0 else 1) + len t
  end.

(** The characters of the string, each with the bytes that continue it. *)
Fixpoint chars (s : string) : list string :=
  match s with
  | EmptyString => []
  | String c t =>
      match t with
      | EmptyString => [String c EmptyString]
      | String d _ =>
          if is_continuation d then
            match chars t with
            | g :: rest => String c g :: rest
            | [] => [String c EmptyString]
            end
          else String c EmptyString :: chars t
      end
  end.

(** [s[:n]]. *)
Definition take (n : nat) (s : string) : string :=
  String.concat EmptyString (firstn n (chars s)).

(** The string holds a surrogate code point: the bytes ED A0..BF. *)
Fixpoint has_surrogate (s : string) : bool :=
  match s with
  | EmptyString => false
  | String c t =>
      match t with
      | String d _ =>
          ((nat_of_ascii c =? 237)%nat
           && (160 <=? nat_of_ascii d)%nat && (nat_of_ascii d <=? 191)%nat)
          || has_surrogate t
      | EmptyString => false
      end
  end.

(** [s.upper()] and [s.lower()] on an ASCII string. *)
Definition ascii_upper : string -> string := smap to_upper.
Definition ascii_lower : string -> string := smap to_lower.

(** [s.title()] on an ASCII string: the first cased character after an
    uncased one is upper-cased, every other cased character is
    lower-cased. *)
Fixpoint title_from (prev_cased : bool) (s : string) : string :=
  match s with
  | EmptyString => EmptyString
  | String c t =>
      if is_lower c then
        String (if prev_cased then c else to_upper c) (title_from true t)
      else if is_upper c then
        String (if prev_cased then to_lower c else c) (title_from true t)
      else String c (title_from false t)
  end.

Definition ascii_title : string -> string := title_from false.

Fixpoint lstrip (s : string) : string :=
  match s with
  | EmptyString => EmptyString
  | String c t => if is_space c then lstrip t else s
  end.

Fixpoint rstrip (s : string) : string :=
  match s with
  | EmptyString => EmptyString
  | String c t =>
      match rstrip t with
      | EmptyString => if is_space c then EmptyString else String c EmptyString
      | t' => String c t'
      end
  end.

(** [s.strip()] on an ASCII string. *)
Definition ascii_strip (s : string) : string := rstrip (lstrip s).

(** [needle in hay] on two strings. *)
Fixpoint contains (needle hay : string) : bool :=
  String.prefix needle hay ||
  match hay with
  | EmptyString => false
  | String _ t => contains needle t
  end.

(** [needle in hay] where [needle] is one ASCII character. *)
Fixpoint has_char (c : ascii) (s : string) : bool :=
  match s with
  | EmptyString => false
  | String d t => Ascii.eqb c d || has_char c t
  end.

(** [str(z)] for an [int]. *)
Definition of_Z (z : Z) : string := NilZero.string_of_int (Z.to_int z).

Definition hex_digit (n : nat) : ascii :=
  ascii_of_nat (if (n <? 10)%nat then 48 + n else 87 + n).

(** One character of [repr(s)] when [q] is the surrounding quote. *)
Definition repr_char (q c : ascii) : string :=
  let n := nat_of_ascii c in
  if Ascii.eqb c q || Ascii.eqb c "\"%char then String "\"%char (String c EmptyString)
  else if (n =? 9)%nat then "\t"
  else if (n =? 10)%nat then "\n"
  else if (n =? 13)%nat then "\r"
  else if (n <? 32)%nat || (n =? 127)%nat then
    String "\"%char (String "x"%char
      (String (hex_digit (n / 16)) (String (hex_digit (n mod 16)) EmptyString)))
  else String c EmptyString.

Fixpoint repr_body (q : ascii) (s : string) : string :=
  match s with
  | EmptyString => EmptyString
  | String c t => repr_char q c ++ repr_body q t
  end.

Definition dquote : ascii := ascii_of_nat 34.

(** [repr(s)] on an ASCII string: single quotes, unless the text has a
    single quote and no double quote. *)
Definition ascii_repr (s : string) : string :=
  let q := if has_char "'"%char s && negb (has_char dquote s)
           then dquote else "'"%char in
  String q (repr_body q s ++ String q EmptyString).

(** The [str] methods of the interpreter on strings that are not ASCII.
    They follow the Unicode database of the interpreter, which is not part
    of the program; the one fact used is that upper-casing maps every
    character to characters it leaves alone. *)
Class Unicode : Type := {
  uni_upper : string -> string;
  uni_lower : string -> string;
  uni_title : string -> string;
  uni_strip : string -> string;
  uni_repr : string -> string;
  uni_upper_fixed :
    forall s, is_ascii s = false ->
      (if is_ascii (uni_upper s) then ascii_upper (uni_upper s)
       else uni_upper (uni_upper s)) = uni_upper s
}.

Section Methods.

Context {U : Unicode}.

(** [s.upper()], [s.lower()], [s.title()], [s.strip()] and [repr(s)]. *)
Definition upper (s : string) : string :=
  if is_ascii s then ascii_upper s else uni_upper s.

Definition lower (s : string) : string :=
  if is_ascii s then ascii_lower s else uni_lower s.

Definition title (s : string) : string :=
  if is_ascii s then ascii_title s else uni_title s.

Definition strip (s : string) : string :=
  if is_ascii s then ascii_strip s else uni_strip s.

Definition repr (s : string) : string :=
  if is_ascii s then ascii_repr s else uni_repr s.

End Methods.

End PyStr.

(** ** Python values, exceptions and results *)

Inductive pyval : Type :=
| PNone
| PBool (b : bool)
| PInt (z : Z)
| PFloat (nonzero : bool) (shown : string)
| PStr (s : string)
| PList (l : list pyval)
| PDict (d : list (string * pyval)).

Inductive exn : Type :=
| RequestException
| AttributeError
| TypeError
| KeyError
| IndexError
| ValueError
| UnicodeEncodeError.

Inductive Result (A : Type) : Type :=
| Ok (a : A)
| Raise (e : exn).

Arguments Ok {A} a.
Arguments Raise {A} e.

Definition rbind {A B} (r : Result A) (k : A -> Result B) : Result B :=
  match r with
  | Ok a => k a
  | Raise e => Raise e
  end.

Notation "'let!' x ':=' e 'in' k" := (rbind e (fun x => k))
  (at level 10, x name, e at level 100, k at level 200).

(** [try: body  except Exception: handler]. *)
Definition try_except {A} (body : Result A) (handler : exn -> A) : A :=
  match body with
  | Ok a => a
  | Raise e => handler e
  end.

Module Py.

Section Values.

Context {U : PyStr.Unicode}.

(** [bool(v)]. *)
Definition truthy (v : pyval) : bool :=
  match v with
  | PNone => false
  | PBool b => b
  | PInt z => negb (z =? 0)%Z
  | PFloat nz _ => nz
  | PStr s => negb (s =? "")
  | PList l => match l with [] => false | _ => true end
  | PDict d => match d with [] => false | _ => true end
  end.

(** [repr(v)] and [str(v)], the latter being what an f-string inserts. *)
Fixpoint repr (v : pyval) : string :=
  match v with
  | PNone => "None"
  | PBool b => if b then "True" else "False"
  | PInt z => PyStr.of_Z z
  | PFloat _ shown => shown
  | PStr s => PyStr.repr s
  | PList l => "[" ++ String.concat ", " (map repr l) ++ "]"
  | PDict d =>
      "{" ++ String.concat ", "
               (map (fun kv => let '(k, x) := kv in
                               PyStr.repr k ++ ": " ++ repr x) d) ++ "}"
  end.

Definition str (v : pyval) : string :=
  match v with
  | PStr s => s
  | _ => repr v
  end.

Fixpoint lookup (k : string) (d : list (string * pyval)) : option pyval :=
  match d with
  | [] => None
  | (k', v) :: d' => if k' =? k then Some v else lookup k d'
  end.

(** [v.get(k, default)]; only a dict has the method. *)
Definition get (v : pyval) (k : string) (default : pyval) : Result pyval :=
  match v with
  | PDict d => Ok (match lookup k d with Some x => x | None => default end)
  | _ => Raise AttributeError
  end.

(** [v.upper()], [v.lower()]: only a [str] has the methods. *)
Definition upper (v : pyval) : Result string :=
  match v with PStr s => Ok (PyStr.upper s) | _ => Raise AttributeError end.

Definition lower (v : pyval) : Result string :=
  match v with PStr s => Ok (PyStr.lower s) | _ => Raise AttributeError end.

(** [for x in v]: the items the loop visits. *)
Definition iter (v : pyval) : Result (list pyval) :=
  match v with
  | PList l => Ok l
  | PDict d => Ok (map (fun kv => PStr (fst kv)) d)
  | PStr s => Ok (map PStr (PyStr.chars s))
  | _ => Raise TypeError
  end.

(** [l[:n]] on a list, for an [int] bound. *)
Definition slice_to {A} (l : list A) (n : Z) : list A :=
  if (0 <=? n)%Z then firstn (Z.to_nat n) l
  else firstn (length l - Z.to_nat (- n)) l.

End Values.

End Py.

(** ** [BillTracker]: the pure helpers *)

Section Tracker.

Context {U : PyStr.Unicode}.

(** [self.current_congress]. *)
Definition current_congress : Z := 118.

Definition CONGRESS_API_BASE_URL : string := "https://api.congress.gov/v3".

(** The dict literal of [_normalize_state]. *)
Definition state_mapping : list (string * string) :=
  [ ("alabama", "AL"); ("alaska", "AK"); ("arizona", "AZ"); ("arkansas", "AR");
    ("california", "CA"); ("colorado", "CO"); ("connecticut", "CT"); ("delaware", "DE");
    ("florida", "FL"); ("georgia", "GA"); ("hawaii", "HI"); ("idaho", "ID");
    ("illinois", "IL"); ("indiana", "IN"); ("iowa", "IA"); ("kansas", "KS");
    ("kentucky", "KY"); ("louisiana", "LA"); ("maine", "ME"); ("maryland", "MD");
    ("massachusetts", "MA"); ("michigan", "MI"); ("minnesota", "MN"); ("mississippi", "MS");
    ("missouri", "MO"); ("montana", "MT"); ("nebraska", "NE"); ("nevada", "NV");
    ("new hampshire", "NH"); ("new jersey", "NJ"); ("new mexico", "NM"); ("new york", "NY");
    ("north carolina", "NC"); ("north dakota", "ND"); ("ohio", "OH"); ("oklahoma", "OK");
    ("oregon", "OR"); ("pennsylvania", "PA"); ("rhode island", "RI"); ("south carolina", "SC");
    ("south dakota", "SD"); ("tennessee", "TN"); ("texas", "TX"); ("utah", "UT");
    ("vermont", "VT"); ("virginia", "VA"); ("washington", "WA"); ("west virginia", "WV");
    ("wisconsin", "WI"); ("wyoming", "WY") ].

(** [x in state_mapping.values()]. *)
Definition in_values (x : string) (m : list (string * string)) : bool :=
  existsb (fun kv => snd kv =? x) m.

(** [_normalize_state], lines 335-359.  The function ends after the
    abbreviation test: line 359 holds the words [return state_mapping.get(...)]
    behind a [#], so they are part of the comment and the function falls off
    its end, which in Python returns [None].  [state_lower] is computed and
    never read. *)
Definition _normalize_state (state_input : string) : option string :=
  let state_lower := PyStr.strip (PyStr.lower state_input) in
  if (PyStr.len state_input =? 2)%nat
     && in_values (PyStr.upper state_input) state_mapping
  then Some (PyStr.upper state_input)
  else None.

(** The dict literal of [_generate_congress_url]. *)
Definition type_mapping : list (string * string) :=
  [ ("HR", "house-bill");
    ("S", "senate-bill");
    ("HJRES", "house-joint-resolution");
    ("SJRES", "senate-joint-resolution");
    ("HCONRES", "house-concurrent-resolution");
    ("SCONRES", "senate-concurrent-resolution");
    ("HRES", "house-resolution");
    ("SRES", "senate-resolution") ].

Fixpoint assoc (k : string) (m : list (string * string)) : option string :=
  match m with
  | [] => None
  | (k', v) :: m' => if k' =? k then Some v else assoc k m'
  end.

(** [type_mapping.get(key, 'bill')]. *)
Definition url_type_of (key : string) : string :=
  match assoc key type_mapping with
  | Some seg => seg
  | None => "bill"
  end.

(** [_generate_congress_url], lines 270-288. *)
Definition _generate_congress_url (bill_type bill_number : pyval) : Result string :=
  if negb (Py.truthy bill_type) || negb (Py.truthy bill_number) then
    Ok "https://www.congress.gov"
  else
    let! key := Py.upper bill_type in
    let url_type := url_type_of key in
    Ok ("https://www.congress.gov/bill/" ++ PyStr.of_Z current_congress
          ++ "th-congress/" ++ url_type ++ "/" ++ Py.str bill_number).

(** ** The canonical bill record *)

(** The dict built by [_format_basic_bill], [_format_detailed_bill] and the
    two mock generators.  A field the code always builds with an f-string or
    [str.upper] is a [string]; a field copied from the upstream payload is
    whatever Python value the payload held. *)
Record Bill : Type := mkBill {
  id : string;
  title : pyval;
  summary : pyval;
  introduced_date : pyval;
  sponsor : string;
  congress_url : string;
  bill_type : string;
  number : pyval;
  updateDate : pyval
}.

(** ** Mock fallback for a keyword *)

(** One entry of the literal tables of [_get_mock_bills] and
    [_get_mock_bills_by_state]: a dict with these six keys. *)
Record RawBill : Type := mkRaw {
  raw_type : string;
  raw_number : string;
  raw_title : string;
  raw_summary : string;
  raw_sponsor : string;
  raw_introducedDate : string
}.

Definition mock_bills_db : list (string * list RawBill) :=
  [ ("healthcare",
      [ mkRaw "HR" "3421"
          "Healthcare Accessibility and Affordability Act of 2024"
          "A bill to improve access to healthcare services and reduce prescription drug costs for Americans. This comprehensive legislation addresses key issues in healthcare delivery and aims to expand coverage while maintaining quality of care."
          "Rep. Sarah Johnson (D-CA)" "2024-12-15";
        mkRaw "S" "1247"
          "Medicare Enhancement and Protection Act"
          "To strengthen Medicare benefits and protect seniors from rising healthcare costs. The bill includes provisions for dental and vision coverage under Medicare Part B."
          "Sen. Michael Thompson (R-TX)" "2024-12-10" ]);
    ("climate",
      [ mkRaw "HR" "2156"
          "Clean Energy Infrastructure Investment Act"
          "Legislation to accelerate the deployment of renewable energy infrastructure and create green jobs across America. Includes tax incentives for solar and wind energy projects."
          "Rep. Elena Rodriguez (D-NV)" "2024-12-18";
        mkRaw "S" "892"
          "Climate Resilience and Adaptation Act of 2024"
          "A comprehensive approach to climate adaptation and resilience building in vulnerable communities. Provides federal funding for climate-resilient infrastructure."
          "Sen. James Wilson (I-VT)" "2024-12-12" ]);
    ("education",
      [ mkRaw "HR" "4567"
          "Student Debt Relief and College Affordability Act"
          "To provide student loan forgiveness and make college more affordable for middle-class families. Includes provisions for community college funding and trade school support."
          "Rep. David Chen (D-WA)" "2024-12-20" ]);
    ("infrastructure",
      [ mkRaw "HR" "1789"
          "National Infrastructure Modernization Act"
          "A comprehensive infrastructure bill addressing roads, bridges, broadband, and water systems. Aims to create jobs while modernizing America's infrastructure."
          "Rep. Maria Gonzalez (R-FL)" "2024-12-14" ]);
    ("technology",
      [ mkRaw "HR" "2890"
          "Digital Privacy and Security Act of 2024"
          "Comprehensive legislation to protect consumer data privacy and enhance cybersecurity standards for businesses. Includes requirements for data breach notifications and user consent."
          "Rep. Jennifer Kim (D-CA)" "2024-12-13" ]) ].

Definition default_bills (keyword : string) : list RawBill :=
  [ mkRaw "HR" "5001"
      ("American Innovation and Competitiveness Act Related to " ++ PyStr.title keyword)
      ("Legislation addressing " ++ keyword
         ++ " policy and its impact on American competitiveness. This bill aims to strengthen our nation's position in "
         ++ keyword
         ++ "-related sectors through targeted investments and regulatory reforms.")
      "Rep. Alex Martinez (D-NY)" "2024-12-16";
    mkRaw "S" "2301"
      ("Bipartisan " ++ PyStr.title keyword ++ " Reform Act of 2024")
      ("A bipartisan approach to " ++ keyword
         ++ " reform that brings together stakeholders from across the political spectrum. The bill includes provisions for transparency, accountability, and effectiveness in "
         ++ keyword ++ " policy.")
      "Sen. Robert Davis (R-GA)" "2024-12-11" ].

(** The test of the loop at line 458. *)
Definition topic_matches (keyword_lower topic : string) : bool :=
  PyStr.contains topic keyword_lower || PyStr.contains keyword_lower topic.

(** The loop of lines 457-459: [relevant_bills.extend(bills)] for every
    matching topic, in the order of the table. *)
Fixpoint collect_relevant (keyword_lower : string)
    (db : list (string * list RawBill)) (relevant_bills : list RawBill)
    : list RawBill :=
  match db with
  | [] => relevant_bills
  | (topic, bills) :: db' =>
      collect_relevant keyword_lower db'
        (if topic_matches keyword_lower topic
         then (relevant_bills ++ bills)%list else relevant_bills)
  end.

(** The body of the formatting loops (lines 468-477 and 510-520). *)
Definition format_raw (bill : RawBill) : Result Bill :=
  let! url := _generate_congress_url (PStr (raw_type bill)) (PStr (raw_number bill)) in
  Ok {| id := raw_type bill ++ raw_number bill;
        title := PStr (raw_title bill);
        summary := PStr (raw_summary bill);
        introduced_date := PStr (raw_introducedDate bill);
        sponsor := raw_sponsor bill;
        congress_url := url;
        bill_type := raw_type bill;
        number := PStr (raw_number bill);
        updateDate := PStr (raw_introducedDate bill) |}.

(** [for bill in bills: formatted_bills.append(...)]. *)
Fixpoint format_all (bills : list RawBill) : Result (list Bill) :=
  match bills with
  | [] => Ok []
  | bill :: rest =>
      let! formatted_bill := format_raw bill in
      let! formatted_bills := format_all rest in
      Ok (formatted_bill :: formatted_bills)
  end.

(** [_get_mock_bills], lines 361-480. *)
Definition _get_mock_bills (keyword : string) : Result (list Bill) :=
  let keyword_lower := PyStr.lower keyword in
  let relevant_bills := collect_relevant keyword_lower mock_bills_db [] in
  let relevant_bills :=
    match relevant_bills with
    | [] => default_bills keyword
    | _ => relevant_bills
    end in
  format_all relevant_bills.

(** ** Mock fallback for a state *)

Section StateMock.

(** The built-in [hash] on [str]: fixed within one interpreter run, not
    across runs. *)
Variable py_hash : string -> Z.

(** Lines 484-486: the code hashed and printed by the state mock. *)
Definition mock_state_abbr (state : string) : string :=
  match _normalize_state state with
  | Some state_abbr =>
      if negb (state_abbr =? EmptyString) then state_abbr else PyStr.upper state
  | None => PyStr.upper state
  end.

Definition state_bills (state : string) : list RawBill :=
  let state_abbr := mock_state_abbr state in
  [ mkRaw "HR"
      (PyStr.of_Z (Z.abs (py_hash state_abbr) mod 9000 + 1000))
      (state ++ " Economic Development and Infrastructure Act")
      ("A bill to promote economic development and improve infrastructure in the state of "
         ++ state
         ++ ". Includes funding for transportation, broadband expansion, and job training programs specific to "
         ++ state ++ "'s needs.")
      ("Rep. [Representative Name] (D-" ++ state_abbr ++ ")")
      "2024-12-19";
    mkRaw "S"
      (PyStr.of_Z (Z.abs (py_hash (state_abbr ++ "senate")) mod 2000 + 100))
      (state ++ " Small Business Support Act of 2024")
      ("Legislation to support small businesses and entrepreneurs in " ++ state
         ++ ". Provides tax incentives, grants, and loan guarantees for small business development in rural and urban areas of "
         ++ state ++ ".")
      ("Sen. [Senator Name] (R-" ++ state_abbr ++ ")")
      "2024-12-17" ].

(** [_get_mock_bills_by_state], lines 482-523. *)
Definition _get_mock_bills_by_state (state : string) : Result (list Bill) :=
  format_all (state_bills state).

End StateMock.

End Tracker.

(** ** The network and the request monad *)

(** What [requests.get] / [requests.post] hand back: the status code and
    what [response.json()] does. *)
Record Response : Type := mkResponse {
  status_code : Z;
  json : Result pyval
}.

(** The upstream services: the [n]-th request of a run, to [url], either
    raises (time-out, connection error: a [RequestException]) or yields a
    response.  Headers, query parameters and time-outs are fixed by the call
    site (the listing passes [min(limit, 100)] as [limit]); the oracle may
    answer anything whatever they are, so it is not given them. *)
Definition World : Type := nat -> string -> Result Response.

(** A computation that may send requests: it starts with the number of
    requests sent so far and ends with a result and the new count. *)
Definition M (A : Type) : Type := nat -> Result A * nat.

Definition ret {A} (a : A) : M A := fun n => (Ok a, n).

Definition bind {A B} (m : M A) (k : A -> M B) : M B :=
  fun n =>
    match m n with
    | (Ok a, n') => k a n'
    | (Raise e, n') => (Raise e, n')
    end.

Definition lift {A} (r : Result A) : M A := fun n => (r, n).

Notation "x <- m ;; k" := (bind m (fun x => k))
  (at level 100, m at next level, right associativity).

(** [try: body  except Exception as e: handler], for code that sends
    requests. *)
Definition m_try {A} (body : M A) (handler : exn -> M A) : M A :=
  fun n =>
    match body n with
    | (Ok a, n') => (Ok a, n')
    | (Raise e, n') => handler e n'
    end.

Definition requests_get (w : World) (url : string) : M Response :=
  fun n => (w n url, S n).

(** [response.raise_for_status()]: an [HTTPError], which is a
    [RequestException], for a 4xx or 5xx status. *)
Definition raise_for_status (r : Response) : Result unit :=
  if (400 <=? status_code r)%Z && (status_code r <? 600)%Z
  then Raise RequestException else Ok tt.

(** ** Formatting an upstream record *)

Module PyMore.

(** [len(v)]. *)
Definition len (v : pyval) : Result nat :=
  match v with
  | PStr s => Ok (PyStr.len s)
  | PList l => Ok (List.length l)
  | PDict d => Ok (List.length d)
  | _ => Raise TypeError
  end.

(** [v[0]].  The keys of a dict that came from JSON are strings, so [0] is
    never among them. *)
Definition index0 (v : pyval) : Result pyval :=
  match v with
  | PList (x :: _) => Ok x
  | PList [] => Raise IndexError
  | PStr s =>
      match PyStr.chars s with
      | c :: _ => Ok (PStr c)
      | [] => Raise IndexError
      end
  | PDict _ => Raise KeyError
  | _ => Raise TypeError
  end.

(** [s.replace('Z', '+00:00')]. *)
Fixpoint replace_Z (s : string) : string :=
  match s with
  | EmptyString => EmptyString
  | String c t =>
      if Ascii.eqb c "Z"%char then "+00:00" ++ replace_Z t
      else String c (replace_Z t)
  end.

Definition is_str (v : pyval) : bool :=
  match v with PStr _ => true | _ => false end.

(** [a == b] where [b] is a [str] literal. *)
Definition eq_str (a : pyval) (b : string) : bool :=
  match a with PStr s => s =? b | _ => false end.

End PyMore.

Section Formatting.

Context {U : PyStr.Unicode}.

(** The [datetime] class, as far as [_format_date] uses it. *)
Variable datetime : Type.
Variable fromisoformat : string -> Result datetime.
Variable strptime_ymd : string -> Result datetime.
Variable strftime_ymd : datetime -> string.

(** [_format_date], lines 319-333.  A value that is not a [str] makes
    ['T' in date_string], [.replace] or [strptime] raise, and the bare
    [except] hands it back. *)
Definition _format_date (date_string : pyval) : pyval :=
  if negb (Py.truthy date_string) then PStr "Unknown"
  else
    try_except
      (match date_string with
       | PStr s =>
           let! date_obj :=
             (if PyStr.has_char "T"%char s
              then fromisoformat (PyMore.replace_Z s)
              else strptime_ymd s) in
           Ok (PStr (strftime_ymd date_obj))
       | _ => Raise TypeError
       end)
      (fun _ => date_string).

(** The loop of [_get_bill_summary] over [summary_fields]. *)
Fixpoint first_summary (bill : pyval) (fields : list string) : Result string :=
  match fields with
  | [] => Ok "No summary available"
  | field :: rest =>
      let! summary := Py.get bill field PNone in
      match summary with
      | PStr s =>
          if Py.truthy summary && negb (PyStr.strip s =? EmptyString)
          then Ok (PyStr.strip s)
          else first_summary bill rest
      | _ => first_summary bill rest
      end
  end.

Definition summary_fields : list string :=
  ["summary"; "latestSummary"; "summary_short"; "description"].

(** [_get_bill_summary], lines 290-300. *)
Definition _get_bill_summary (bill : pyval) : Result string :=
  first_summary bill summary_fields.

(** [_get_sponsor_info_from_bill], lines 302-317. *)
Definition _get_sponsor_info_from_bill (bill : pyval) : Result string :=
  let! sponsors := Py.get bill "sponsors" (PList []) in
  let! nonempty :=
    (if Py.truthy sponsors
     then let! n := PyMore.len sponsors in Ok (0 <? n)%nat
     else Ok false) in
  if nonempty then
    let! sponsor := PyMore.index0 sponsors in
    let! first_name := Py.get sponsor "firstName" (PStr EmptyString) in
    let! last_name := Py.get sponsor "lastName" (PStr EmptyString) in
    let! party := Py.get sponsor "party" (PStr EmptyString) in
    let! state := Py.get sponsor "state" (PStr EmptyString) in
    if Py.truthy first_name && Py.truthy last_name then
      Ok (Py.str first_name ++ " " ++ Py.str last_name
            ++ " (" ++ Py.str party ++ "-" ++ Py.str state ++ ")")
    else if Py.truthy last_name then
      Ok (Py.str last_name ++ " (" ++ Py.str party ++ "-" ++ Py.str state ++ ")")
    else Ok "Unknown"
  else Ok "Unknown".

(** [_format_basic_bill], lines 212-235: [None] when anything raises. *)
Definition _format_basic_bill (bill : pyval) : option Bill :=
  try_except
    (let! ty := Py.get bill "type" (PStr EmptyString) in
     let! bill_type := Py.upper ty in
     let! bill_number := Py.get bill "number" (PStr "N/A") in
     let! congress_url := _generate_congress_url (PStr bill_type) bill_number in
     let! title := Py.get bill "title" (PStr "No title available") in
     let! summary := _get_bill_summary bill in
     let! fallback_date := Py.get bill "updateDate" (PStr EmptyString) in
     let! date_string := Py.get bill "introducedDate" fallback_date in
     let! sponsor := _get_sponsor_info_from_bill bill in
     let! updateDate := Py.get bill "updateDate" (PStr EmptyString) in
     Ok (Some {| id := bill_type ++ Py.str bill_number;
                 title := title;
                 summary := PStr summary;
                 introduced_date := _format_date date_string;
                 sponsor := sponsor;
                 congress_url := congress_url;
                 bill_type := bill_type;
                 number := bill_number;
                 updateDate := updateDate |}))
    (fun _ => None).

(** Lines 247-252 of [_format_detailed_bill]: the summary, with the nested
    [summaries] array as second source. *)
Definition detailed_summary (bill : pyval) : Result pyval :=
  let! summary := _get_bill_summary bill in
  if (summary =? EmptyString) || (summary =? "No summary available") then
    let! outer := Py.get bill "summaries" (PDict []) in
    let! summaries := Py.get outer "summaries" (PList []) in
    if Py.truthy summaries then
      let! first := PyMore.index0 summaries in
      Py.get first "text" (PStr "No summary available")
    else Ok (PStr summary)
  else Ok (PStr summary).

(** [_format_detailed_bill], lines 237-268: [None] when anything raises. *)
Definition _format_detailed_bill (bill : pyval) : option Bill :=
  try_except
    (let! ty := Py.get bill "type" (PStr EmptyString) in
     let! bill_type := Py.upper ty in
     let! bill_number := Py.get bill "number" (PStr "N/A") in
     let! congress_url := _generate_congress_url (PStr bill_type) bill_number in
     let! summary := detailed_summary bill in
     let! title := Py.get bill "title" (PStr "No title available") in
     let! date_string := Py.get bill "introducedDate" (PStr EmptyString) in
     let! sponsor := _get_sponsor_info_from_bill bill in
     let! updateDate := Py.get bill "updateDate" (PStr EmptyString) in
     Ok (Some {| id := bill_type ++ Py.str bill_number;
                 title := title;
                 summary := summary;
                 introduced_date := _format_date date_string;
                 sponsor := sponsor;
                 congress_url := congress_url;
                 bill_type := bill_type;
                 number := bill_number;
                 updateDate := updateDate |}))
    (fun _ => None).

(** ** Keyword search *)

(** The loop of [_filter_bills_by_keyword], lines 111-114. *)
Fixpoint filter_loop (keyword_lower : string) (bills : list pyval)
    : Result (list pyval) :=
  match bills with
  | [] => Ok []
  | bill :: rest =>
      let! t := Py.get bill "title" (PStr EmptyString) in
      let! title := Py.lower t in
      let! filtered := filter_loop keyword_lower rest in
      Ok (if PyStr.contains keyword_lower title then bill :: filtered else filtered)
  end.

(** [_filter_bills_by_keyword], lines 106-116. *)
Definition _filter_bills_by_keyword (bills : pyval) (keyword : string)
    : Result (list pyval) :=
  let keyword_lower := PyStr.lower keyword in
  let! items := Py.iter bills in
  filter_loop keyword_lower items.

Variable w : World.

(** [_get_bill_details], lines 118-142. *)
Definition _get_bill_details (bill : pyval) : M (option Bill) :=
  m_try
    (bill_number <- lift (Py.get bill "number" PNone) ;;
     ty <- lift (Py.get bill "type" (PStr EmptyString)) ;;
     bill_type <- lift (Py.lower ty) ;;
     if negb (Py.truthy bill_number) || (bill_type =? EmptyString) then
       ret (_format_basic_bill bill)
     else
       let detail_url :=
         CONGRESS_API_BASE_URL ++ "/bill/" ++ PyStr.of_Z current_congress
           ++ "/" ++ bill_type ++ "/" ++ Py.str bill_number in
       response <- requests_get w detail_url ;;
       if (status_code response =? 200)%Z then
         detail_data <- lift (json response) ;;
         bill_detail <- lift (Py.get detail_data "bill" (PDict [])) ;;
         ret (_format_detailed_bill bill_detail)
       else ret (_format_basic_bill bill))
    (fun _ => ret (_format_basic_bill bill)).

(** The loop of lines 69-72. *)
Fixpoint details_loop (bills : list pyval) : M (list Bill) :=
  match bills with
  | [] => ret []
  | bill :: rest =>
      detailed_bill <- _get_bill_details bill ;;
      detailed_bills <- details_loop rest ;;
      ret (match detailed_bill with
           | Some b => b :: detailed_bills
           | None => detailed_bills
           end)
  end.

(** The [try] block of [search_bills_by_keyword], lines 50-74. *)
Definition search_body (keyword : string) (limit : Z) : M (list Bill) :=
  let url := CONGRESS_API_BASE_URL ++ "/bill/" ++ PyStr.of_Z current_congress in
  response <- requests_get w url ;;
  _ <- lift (raise_for_status response) ;;
  data <- lift (json response) ;;
  bills <- lift (Py.get data "bills" (PList [])) ;;
  filtered_bills <- lift (_filter_bills_by_keyword bills keyword) ;;
  details_loop (Py.slice_to filtered_bills limit).

(** [search_bills_by_keyword], lines 47-81: both handlers return the mock
    bills of the keyword. *)
Definition search_bills_by_keyword (keyword : string) (limit : Z) : M (list Bill) :=
  m_try (search_body keyword limit)
    (fun e =>
       match e with
       | RequestException => lift (_get_mock_bills keyword)
       | _ => lift (_get_mock_bills keyword)
       end).

End Formatting.

(** ** State search *)

Section StateSearch.

Context {U : PyStr.Unicode}.

Variable datetime : Type.
Variable fromisoformat : string -> Result datetime.
Variable strptime_ymd : string -> Result datetime.
Variable strftime_ymd : datetime -> string.
Variable py_hash : string -> Z.

(** [all_bills.sort(key=lambda x: x.get('updateDate', ''), reverse=True)]:
    the built-in sort, which raises [TypeError] on keys it cannot order. *)
Variable sort_by_updateDate_desc : list Bill -> Result (list Bill).

Variable w : World.

(** The list comprehensions of lines 161-162 and 170-171. *)
Fixpoint members_of_state (state_abbr : string) (members : list pyval)
    : Result (list pyval) :=
  match members with
  | [] => Ok []
  | m :: rest =>
      let! st := Py.get m "state" (PStr EmptyString) in
      let! st_upper := Py.upper st in
      let! kept := members_of_state state_abbr rest in
      Ok (if st_upper =? PyStr.upper state_abbr then m :: kept else kept)
  end.

(** One chamber of [_get_members_by_state]: lines 158-163 and 167-172. *)
Definition chamber_members (chamber state_abbr : string) : M (list pyval) :=
  let url := CONGRESS_API_BASE_URL ++ "/member/" ++ chamber ++ "/"
               ++ PyStr.of_Z current_congress in
  response <- requests_get w url ;;
  if (status_code response =? 200)%Z then
    data <- lift (json response) ;;
    all_members <- lift (Py.get data "members" (PList [])) ;;
    items <- lift (Py.iter all_members) ;;
    lift (members_of_state state_abbr items)
  else ret [].

(** [_get_members_by_state], lines 144-178. *)
Definition _get_members_by_state (state : string) : M (list pyval) :=
  m_try
    (match _normalize_state state with
     | None => ret []
     | Some state_abbr =>
         if state_abbr =? EmptyString then ret []
         else
           house_members <- chamber_members "house" state_abbr ;;
           senate_members <- chamber_members "senate" state_abbr ;;
           ret (house_members ++ senate_members)%list
     end)
    (fun _ => ret []).

(** The loop of lines 200-203. *)
Fixpoint format_sponsored (bills : list pyval) : list Bill :=
  match bills with
  | [] => []
  | bill :: rest =>
      match _format_basic_bill datetime fromisoformat strptime_ymd strftime_ymd bill with
      | Some formatted_bill => formatted_bill :: format_sponsored rest
      | None => format_sponsored rest
      end
  end.

(** [_get_member_sponsored_bills], lines 180-210. *)
Definition _get_member_sponsored_bills (bioguide_id : pyval) : M (list Bill) :=
  m_try
    (if negb (Py.truthy bioguide_id) then ret []
     else
       let url := CONGRESS_API_BASE_URL ++ "/member/" ++ Py.str bioguide_id
                    ++ "/sponsored-legislation" in
       response <- requests_get w url ;;
       if (status_code response =? 200)%Z then
         data <- lift (json response) ;;
         bills <- lift (Py.get data "sponsoredLegislation" (PList [])) ;;
         items <- lift (Py.iter bills) ;;
         ret (format_sponsored items)
       else ret [])
    (fun _ => ret []).

(** The loop of lines 94-96. *)
Fixpoint sponsored_loop (members : list pyval) : M (list Bill) :=
  match members with
  | [] => ret []
  | member :: rest =>
      bioguide_id <- lift (Py.get member "bioguideId" (PStr EmptyString)) ;;
      member_bills <- _get_member_sponsored_bills bioguide_id ;;
      all_bills <- sponsored_loop rest ;;
      ret (member_bills ++ all_bills)%list
  end.

(** [search_bills_by_state], lines 83-104. *)
Definition search_bills_by_state (state : string) (limit : Z) : M (list Bill) :=
  m_try
    (members <- _get_members_by_state state ;;
     match members with
     | [] => lift (_get_mock_bills_by_state py_hash state)
     | _ =>
         all_bills <- sponsored_loop (firstn 10 members) ;;
         sorted <- lift (sort_by_updateDate_desc all_bills) ;;
         ret (Py.slice_to sorted limit)
     end)
    (fun _ => lift (_get_mock_bills_by_state py_hash state)).

End StateSearch.

(** ** Summary enrichment *)

Definition HUGGINGFACE_API_URL : string :=
  "https://api-inference.huggingface.co/models/facebook/bart-large-cnn".

Definition no_key_summary (topic : string) : string :=
  "AI Summary not available (API key required). This bill relates to " ++ topic ++ ".".

Definition fallback_summary (topic : string) : string :=
  "This bill addresses " ++ topic
    ++ "-related policies and may impact regulatory compliance for businesses.".

Definition unavailable_summary (topic : string) : string :=
  "AI summary unavailable. This bill relates to " ++ topic
    ++ " and may have regulatory implications.".

(** [bill_text[:1000]]: a [str] or a list can be sliced. *)
Definition slice_1000 (bill_text : pyval) : Result pyval :=
  match bill_text with
  | PStr s => Ok (PStr (PyStr.take 1000 s))
  | PList l => Ok (PList (firstn 1000 l))
  | _ => Raise TypeError
  end.

Section Enrichment.

Context {U : PyStr.Unicode}.

(** The module constant [HUGGINGFACE_API_KEY]: the environment variable,
    [None] when it is not set. *)
Variable HUGGINGFACE_API_KEY : option string.

Variable w : World.

Definition key_configured : bool :=
  match HUGGINGFACE_API_KEY with
  | Some k => negb (k =? EmptyString)
  | None => false
  end.

Definition requests_post (url : string) : M Response :=
  fun n => (w n url, S n).

(** [get_llm_summary], lines 529-561. *)
Definition get_llm_summary (bill_text : pyval) (topic : string) : M pyval :=
  m_try
    (if negb key_configured then ret (PStr (no_key_summary topic))
     else
       excerpt <- lift (slice_1000 bill_text) ;;
       response <- requests_post HUGGINGFACE_API_URL ;;
       if (status_code response =? 200)%Z then
         result <- lift (json response) ;;
         match result with
         | PList (first :: _) =>
             lift (Py.get first "summary_text" (PStr "Summary not available"))
         | _ => ret (PStr (fallback_summary topic))
         end
       else ret (PStr (fallback_summary topic)))
    (fun _ => ret (PStr (unavailable_summary topic))).

End Enrichment.

(** ** CSV export *)

(** What [api_export] answers: the rows handed to [csv.writer.writerow], in
    order, or a JSON error with its status.  How a row is laid out as text
    is the [csv] module's, and the file name carries the clock; neither is
    part of the embedding. *)
Inductive ExportResponse : Type :=
| CsvFile (rows : list (list pyval))
| JsonError (status : Z) (error : string).

Definition csv_header : list pyval :=
  [ PStr "Bill ID"; PStr "Title"; PStr "Summary"; PStr "Introduced Date";
    PStr "Sponsor"; PStr "Type"; PStr "Congress URL" ].

(** The row of lines 623-631. *)
Definition csv_row (bill : pyval) : Result (list pyval) :=
  let! c1 := Py.get bill "id" (PStr EmptyString) in
  let! c2 := Py.get bill "title" (PStr EmptyString) in
  let! c3 := Py.get bill "summary" (PStr EmptyString) in
  let! c4 := Py.get bill "introduced_date" (PStr EmptyString) in
  let! c5 := Py.get bill "sponsor" (PStr EmptyString) in
  let! c6 := Py.get bill "bill_type" (PStr EmptyString) in
  let! c7 := Py.get bill "congress_url" (PStr EmptyString) in
  Ok [c1; c2; c3; c4; c5; c6; c7].

(** The loop of lines 622-631; [written] is what the writer holds. *)
Fixpoint write_rows (bills : list pyval) (written : list (list pyval))
    : Result (list (list pyval)) :=
  match bills with
  | [] => Ok written
  | bill :: rest =>
      let! row := csv_row bill in
      write_rows rest (written ++ [row])%list
  end.

(** The text the writer makes of a cell can be encoded as UTF-8: a [str]
    cell is written as it is and must hold no surrogate; any other value is
    written through [str()], which leaves ASCII or escapes. *)
Definition cell_encodable (cell : pyval) : bool :=
  match cell with
  | PStr s => negb (PyStr.has_surrogate s)
  | _ => true
  end.

(** Lines 634-641: [make_response(csv_content)] encodes the text, and that
    raises on a surrogate. *)
Definition make_response (rows : list (list pyval)) : Result ExportResponse :=
  if forallb (forallb cell_encodable) rows then Ok (CsvFile rows)
  else Raise UnicodeEncodeError.

(** [api_export], lines 604-645, on the JSON body of the request. *)
Definition api_export (data : pyval) : ExportResponse :=
  try_except
    (let! bills := Py.get data "bills" (PList []) in
     if negb (Py.truthy bills) then Ok (JsonError 400 "No bills to export")
     else
       let! items := Py.iter bills in
       let! rows := write_rows items [csv_header] in
       make_response rows)
    (fun _ => JsonError 500 "An error occurred while exporting data").

(** ** The search endpoint *)

(** The body of the 200 answer of [api_search].  A bill comes with its
    [ai_summary] when one was attached. *)
Record SearchResult : Type := mkSearchResult {
  res_bills : list (Bill * option pyval);
  res_count : nat;
  res_query : string;
  res_search_type : pyval
}.

Inductive SearchResponse : Type :=
| SearchOk (body : SearchResult)
| SearchError (status : Z) (error : string).

Section SearchEndpoint.

Context {U : PyStr.Unicode}.

(** [v.strip()]: only a [str] has the method. *)
Definition strip_method (v : pyval) : Result string :=
  match v with PStr s => Ok (PyStr.strip s) | _ => Raise AttributeError end.

Variable datetime : Type.
Variable fromisoformat : string -> Result datetime.
Variable strptime_ymd : string -> Result datetime.
Variable strftime_ymd : datetime -> string.
Variable py_hash : string -> Z.
Variable sort_by_updateDate_desc : list Bill -> Result (list Bill).
Variable HUGGINGFACE_API_KEY : option string.
Variable w : World.

(** The loop of lines 589-590: every bill gets its [ai_summary]. *)
Fixpoint attach_summaries (bills : list Bill) (query : string)
    : M (list (Bill * option pyval)) :=
  match bills with
  | [] => ret []
  | bill :: rest =>
      ai_summary <- get_llm_summary HUGGINGFACE_API_KEY w (summary bill) query ;;
      annotated <- attach_summaries rest query ;;
      ret ((bill, Some ai_summary) :: annotated)
  end.

(** [api_search], lines 569-602, on the JSON body of the request.  Both
    searches run with their default limit of 20. *)
Definition api_search (data : pyval) : M SearchResponse :=
  m_try
    (q <- lift (Py.get data "query" (PStr EmptyString)) ;;
     query <- lift (strip_method q) ;;
     search_type <- lift (Py.get data "type" (PStr "keyword")) ;;
     if query =? EmptyString then
       ret (SearchError 400 "Query parameter is required")
     else
       bills <- (if PyMore.eq_str search_type "state"
                 then search_bills_by_state datetime fromisoformat strptime_ymd
                        strftime_ymd py_hash sort_by_updateDate_desc w query 20
                 else search_bills_by_keyword datetime fromisoformat strptime_ymd
                        strftime_ymd w query 20) ;;
       include_ai <- lift (Py.get data "include_ai" (PBool false)) ;;
       annotated <- (if Py.truthy include_ai
                     then attach_summaries bills query
                     else ret (map (fun bill => (bill, None)) bills)) ;;
       ret (SearchOk {| res_bills := annotated;
                        res_count := List.length bills;
                        res_query := query;
                        res_search_type := search_type |}))
    (fun _ => ret (SearchError 500 "An error occurred while searching for bills")).

End SearchEndpoint.

(** * Vocabulary of the properties *)

Section Vocabulary.

Context {U : PyStr.Unicode}.

(** ** Congress URLs *)

(** The eight keys of [type_mapping]. *)
Definition bill_type_codes : list string :=
  ["HR"; "S"; "HJRES"; "SJRES"; "HCONRES"; "SCONRES"; "HRES"; "SRES"].

(** The URL built for a type code and a number, once both are known to be
    present. *)
Definition congress_url_of (t : string) (n : pyval) : string :=
  if negb (t =? EmptyString) && Py.truthy n
  then "https://www.congress.gov/bill/118th-congress/"
         ++ url_type_of (PyStr.upper t) ++ "/" ++ Py.str n
  else "https://www.congress.gov".

(** ** Mock tables *)

(** The record the formatting loop appends for one table entry. *)
Definition canonical_of_raw (bill : RawBill) : Bill :=
  {| id := raw_type bill ++ raw_number bill;
     title := PStr (raw_title bill);
     summary := PStr (raw_summary bill);
     introduced_date := PStr (raw_introducedDate bill);
     sponsor := raw_sponsor bill;
     congress_url := congress_url_of (raw_type bill) (PStr (raw_number bill));
     bill_type := raw_type bill;
     number := PStr (raw_number bill);
     updateDate := PStr (raw_introducedDate bill) |}.

(** The entries of the table whose topic matches the keyword. *)
Definition matched_topics (keyword : string) : list (string * list RawBill) :=
  filter (fun entry => topic_matches (PyStr.lower keyword) (fst entry)) mock_bills_db.

(** The canned bills of one topic of the table. *)
Definition topic_bills (topic : string) : list RawBill :=
  match find (fun entry => fst entry =? topic) mock_bills_db with
  | Some entry => snd entry
  | None => []
  end.


(** ** Upstream behaviours *)

(** The URL of the listing request of [search_bills_by_keyword]. *)
Definition listing_url : string := "https://api.congress.gov/v3/bill/118".

(** The upstream cannot be reached: every request raises. *)
Definition unreachable (w : World) : Prop :=
  forall (k : nat) (url : string), exists e, w k url = Raise e.

(** The upstream where every request fails in transport. *)
Definition down : World := fun _ _ => Raise RequestException.

(** An upstream that answers every request with status 200 and this body. *)
Definition answers (body : pyval) : World :=
  fun _ _ => Ok (mkResponse 200 (Ok body)).

(** A stand-in for the interpreter's [hash] on concrete runs. *)
Definition length_hash (s : string) : Z := Z.of_nat (String.length s).

(** ** Export rows *)

(** The keys read by the row of lines 623-631, in column order. *)
Definition export_columns : list string :=
  ["id"; "title"; "summary"; "introduced_date"; "sponsor"; "bill_type"; "congress_url"].

(** The cells of the row of one bill: the value under each column key, the
    empty string for a key the bill does not have. *)
Definition export_row (bill : list (string * pyval)) : list pyval :=
  map (fun key => match Py.lookup key bill with
                  | Some v => v
                  | None => PStr EmptyString
                  end) export_columns.

(** The cells of the row of a bill can all be encoded. *)
Definition row_encodable (bill : list (string * pyval)) : bool :=
  forallb cell_encodable (export_row bill).

(** The one-character string that holds the surrogate U+D800. *)
Definition lone_surrogate : string :=
  String (ascii_of_nat 237) (String (ascii_of_nat 160) (String (ascii_of_nat 128) EmptyString)).

(** ** Outcomes of the summarization call *)

(** The call raised: the text cannot be sliced, the request failed in
    transport or timed out, the body of a 200 answer cannot be decoded, or
    its first element is not an object. *)
Definition call_raised (w : World) (bill_text : pyval) (n : nat) : bool :=
  match slice_1000 bill_text with
  | Raise _ => true
  | Ok _ =>
      match w n HUGGINGFACE_API_URL with
      | Raise _ => true
      | Ok r =>
          (status_code r =? 200)%Z &&
          match json r with
          | Raise _ => true
          | Ok (PList (PDict _ :: _)) => false
          | Ok (PList (_ :: _)) => true
          | Ok _ => false
          end
      end
  end.

(** The call was answered, but not with status 200 and a non-empty list. *)
Definition answer_unusable (w : World) (n : nat) : bool :=
  match w n HUGGINGFACE_API_URL with
  | Raise _ => false
  | Ok r =>
      negb (status_code r =? 200)%Z ||
      match json r with
      | Ok (PList (_ :: _)) => false
      | Ok _ => true
      | Raise _ => false
      end
  end.

(** ** Fields of a bill record *)

(** [d.get(key, default)] on the items of a dict. *)
Definition value_or (key : string) (d : list (string * pyval)) (default : pyval) : pyval :=
  match Py.lookup key d with
  | Some v => v
  | None => default
  end.











(** A body that serves as listing and as detail: the listed bill has type
    and number, and its detail record carries [null] as title. *)
Definition null_title_body : pyval :=
  PDict [ ("bills", PList [PDict [ ("title", PStr "Healthcare bill");
                                   ("type", PStr "HR"); ("number", PStr "1") ]]);
          ("bill", PDict [ ("title", PNone); ("type", PStr "HR");
                           ("number", PStr "1") ]) ].

(** ** Listed bills and the keyword filter *)

(** The title [_filter_bills_by_keyword] reads from a listed item: the
    value under [title] or the empty string, when the item is a dict and the
    value a [str]. *)
Definition listed_title (v : pyval) : option string :=
  match v with
  | PDict d =>
      match value_or "title" d (PStr EmptyString) with
      | PStr t => Some t
      | _ => None
      end
  | _ => None
  end.

Definition well_titled (v : pyval) : bool :=
  match listed_title v with Some _ => true | None => false end.

(** The lower-cased title contains the lower-cased keyword. *)
Definition title_has (keyword : string) (v : pyval) : bool :=
  match listed_title v with
  | Some t => PyStr.contains (PyStr.lower keyword) (PyStr.lower t)
  | None => false
  end.

(** ** Members of a state *)

(** A member record whose [state], upper-cased, is the code upper-cased. *)
Definition member_of (code : string) (m : pyval) : bool :=
  match m with
  | PDict d =>
      match value_or "state" d (PStr EmptyString) with
      | PStr st => PyStr.upper st =? PyStr.upper code
      | _ => false
      end
  | _ => false
  end.

(** ** Consistency of a record *)

(** The id is type and number joined, the URL is the one of type and
    number, and the type is in upper case. *)
Definition consistent (b : Bill) : Prop :=
  id b = bill_type b ++ Py.str (number b)
  /\ congress_url b = congress_url_of (bill_type b) (number b)
  /\ PyStr.upper (bill_type b) = bill_type b.

(** A listing with one proper bill and one item that is not an object. *)
Definition malformed_listing : pyval :=
  PDict [("bills", PList [PDict [("title", PStr "Tax Act")]; PInt 5])].

(** A member listing with one member of Texas and one of California. *)
Definition members_body : pyval :=
  PDict [("members", PList [ PDict [("state", PStr "tx"); ("bioguideId", PStr "T000001")];
                             PDict [("state", PStr "CA"); ("bioguideId", PStr "C000001")] ])].

(** A search request for "climate" with summaries. *)
Definition ai_request : pyval :=
  PDict [("query", PStr " climate "); ("include_ai", PBool true)].


(** ** The search of the endpoint *)

Section EndpointSearch.

Variable datetime : Type.
Variable fromisoformat : string -> Result datetime.
Variable strptime_ymd : string -> Result datetime.
Variable strftime_ymd : datetime -> string.
Variable py_hash : string -> Z.
Variable sort_by_updateDate_desc : list Bill -> Result (list Bill).
Variable w : World.

(** The search [api_search] runs for a [type] value and a query. *)
Definition chosen_search (search_type : pyval) (query : string) : M (list Bill) :=
  if PyMore.eq_str search_type "state"
  then search_bills_by_state datetime fromisoformat strptime_ymd strftime_ymd
         py_hash sort_by_updateDate_desc w query 20
  else search_bills_by_keyword datetime fromisoformat strptime_ymd strftime_ymd
         w query 20.

End EndpointSearch.

End Vocabulary.

(** A stand-in for the Unicode tables on concrete runs: every string that
    is not ASCII is left as it is. *)
Definition plain : PyStr.Unicode.
Proof.
  refine {| PyStr.uni_upper := fun s => s;
            PyStr.uni_lower := fun s => s;
            PyStr.uni_title := fun s => s;
            PyStr.uni_strip := fun s => s;
            PyStr.uni_repr := fun s => s |}.
  intros s H. now rewrite H.
Defined.

(** * Properties *)

Section Properties.

Context {Uni : PyStr.Unicode}.

(** ** State normalization *)

Lemma normalize_state_other_length (s : string) :
  PyStr.len s <> 2%nat -> _normalize_state s = None.
Proof.
  intro H. unfold _normalize_state.
  destruct (Nat.eqb_spec (PyStr.len s) 2) as [E | _]; [contradiction | reflexivity].
Qed.

Lemma normalize_state_some (s a : string) :
  _normalize_state s = Some a ->
  PyStr.len s = 2%nat /\ a = PyStr.upper s
  /\ in_values a state_mapping = true.
Proof.
  unfold _normalize_state.
  destruct (Nat.eqb_spec (PyStr.len s) 2) as [E | N]; cbn [andb]; [| discriminate].
  destruct (in_values (PyStr.upper s) state_mapping) eqn:V; [| discriminate].
  intro H. injection H as <-. auto.
Qed.

Lemma smap_length (f : ascii -> ascii) (s : string) :
  String.length (PyStr.smap f s) = String.length s.
Proof. induction s; simpl; congruence. Qed.

Lemma in_values_code (a : string) :
  in_values a state_mapping = true -> In a (map snd state_mapping).
Proof.
  unfold in_values. intro V. apply existsb_exists in V as ([k v] & I & E).
  apply String.eqb_eq in E. simpl in E. subst v.
  apply in_map_iff. now exists (k, a).
Qed.

Lemma normalize_state_nonempty (s a : string) :
  _normalize_state s = Some a -> a <> EmptyString.
Proof.
  intros H E. apply normalize_state_some in H as (_ & _ & V).
  apply in_values_code in V.
  assert (Forall (fun c => c <> EmptyString) (map snd state_mapping)) as F
    by (repeat constructor; discriminate).
  rewrite Forall_forall in F. exact (F a V E).
Qed.

(** C3.  What [_normalize_state] returns on the three inputs of the
    specification: the full name "California" is not resolved ([None], the
    unresolved sentinel) although the test suite asserts "CA"; the
    two-letter input "ca" gives "CA"; "Atlantis" is not resolved. *)
Theorem normalize_state_spec_inputs :
  _normalize_state "California" = None
  /\ _normalize_state "ca" = Some "CA"
  /\ _normalize_state "Atlantis" = None.
Proof. repeat split; reflexivity. Qed.

(** C4.  What [_normalize_state] returns on unrecognized input: every
    input whose length is not 2 comes back unresolved ([None]), and so does
    the two-letter "zz", which is not passed through as "ZZ". *)
Theorem normalize_state_unrecognized :
  (forall s, PyStr.len s <> 2%nat -> _normalize_state s = None)
  /\ _normalize_state "zz" = None
  /\ PyStr.upper "zz" = "ZZ".
Proof.
  split; [exact normalize_state_other_length | split; reflexivity].
Qed.

(** ** Congress URLs *)

Lemma url_type_of_other (k : string) :
  ~ In k bill_type_codes -> url_type_of k = "bill".
Proof.
  intro H. unfold url_type_of, type_mapping, assoc.
  repeat match goal with
  | |- context [String.eqb ?a k] =>
      destruct (String.eqb_spec a k) as [E | _];
      [ exfalso; apply H; rewrite <- E; simpl; tauto | ]
  end.
  reflexivity.
Qed.

Lemma generate_congress_url_eq (t : string) (n : pyval) :
  _generate_congress_url (PStr t) n = Ok (congress_url_of t n).
Proof.
  unfold _generate_congress_url, congress_url_of. simpl Py.truthy.
  destruct (t =? EmptyString); simpl; [reflexivity |].
  destruct (Py.truthy n); reflexivity.
Qed.

(** C5.  [_generate_congress_url] on a type code [t] and any number [n]
    always returns (it never raises), and what it returns is fixed by the
    pair: the bare domain when the type or the number is missing (empty,
    [None], or otherwise falsy), and otherwise the template
    [https://www.congress.gov/bill/118th-congress/{segment}/{number}], where
    the segment of the upper-cased type comes from the eight-entry table and
    is [bill] for every other type. *)
Theorem generate_congress_url_total (t : string) (n : pyval) :
  _generate_congress_url (PStr t) n =
    Ok (if negb (t =? EmptyString) && Py.truthy n
        then "https://www.congress.gov/bill/118th-congress/"
               ++ url_type_of (PyStr.upper t) ++ "/" ++ Py.str n
        else "https://www.congress.gov")
  /\ _generate_congress_url PNone n = Ok "https://www.congress.gov"
  /\ _generate_congress_url (PStr t) PNone = Ok "https://www.congress.gov"
  /\ map url_type_of bill_type_codes =
       [ "house-bill"; "senate-bill"; "house-joint-resolution";
         "senate-joint-resolution"; "house-concurrent-resolution";
         "senate-concurrent-resolution"; "house-resolution";
         "senate-resolution" ]
  /\ (~ In (PyStr.upper t) bill_type_codes -> url_type_of (PyStr.upper t) = "bill").
Proof.
  repeat split.
  - apply generate_congress_url_eq.
  - unfold _generate_congress_url. simpl Py.truthy.
    destruct (t =? EmptyString); reflexivity.
  - apply url_type_of_other.
Qed.

(** ** The keyword mock *)

Lemma format_raw_ok (bill : RawBill) :
  format_raw bill = Ok (canonical_of_raw bill).
Proof.
  unfold format_raw. rewrite generate_congress_url_eq. reflexivity.
Qed.

Lemma format_all_ok (bills : list RawBill) :
  format_all bills = Ok (map canonical_of_raw bills).
Proof.
  induction bills as [| b rest IH]; simpl; [reflexivity |].
  rewrite format_raw_ok, IH. reflexivity.
Qed.

Lemma collect_relevant_filter (kl : string) (db : list (string * list RawBill))
    (acc : list RawBill) :
  collect_relevant kl db acc =
    (acc ++ flat_map snd (filter (fun entry => topic_matches kl (fst entry)) db))%list.
Proof.
  revert acc. induction db as [| [topic bills] db IH]; intro acc; simpl.
  - now rewrite app_nil_r.
  - rewrite IH. destruct (topic_matches kl topic); simpl.
    + now rewrite <- app_assoc.
    + reflexivity.
Qed.

Lemma matched_topics_bills (keyword : string) :
  matched_topics keyword <> [] -> flat_map snd (matched_topics keyword) <> [].
Proof.
  unfold matched_topics.
  assert (Forall (fun entry : string * list RawBill => snd entry <> []) mock_bills_db) as F
    by (repeat constructor; discriminate).
  revert F. generalize mock_bills_db as db.
  induction db as [| [topic bills] db IH]; intros F H; [contradiction |].
  inversion F as [| ? ? Hb F']; subst. simpl in *.
  destruct (topic_matches (PyStr.lower keyword) topic); simpl.
  - destruct bills; [contradiction | discriminate].
  - auto.
Qed.

Lemma get_mock_bills_eq (keyword : string) :
  _get_mock_bills keyword =
    Ok (map canonical_of_raw
          (match matched_topics keyword with
           | [] => default_bills keyword
           | _ => flat_map snd (matched_topics keyword)
           end)).
Proof.
  unfold _get_mock_bills. rewrite format_all_ok, collect_relevant_filter, app_nil_l.
  fold (matched_topics keyword).
  destruct (matched_topics keyword) as [| e es] eqn:E; [reflexivity |].
  assert (flat_map snd (matched_topics keyword) <> []) as N
    by (apply matched_topics_bills; rewrite E; discriminate).
  rewrite E in N. destruct (flat_map snd (e :: es)); [contradiction | reflexivity].
Qed.


(** ** Keyword search and its fallback *)

Section KeywordSearch.

Variable datetime : Type.
Variable fromisoformat : string -> Result datetime.
Variable strptime_ymd : string -> Result datetime.
Variable strftime_ymd : datetime -> string.
Variable w : World.

Local Abbreviation search :=
  (search_bills_by_keyword datetime fromisoformat strptime_ymd strftime_ymd w).
Local Abbreviation body :=
  (search_body datetime fromisoformat strptime_ymd strftime_ymd w).

Lemma search_handler (keyword : string) (limit : Z) (n n' : nat) (e : exn) :
  body keyword limit n = (Raise e, n') ->
  search keyword limit n = (_get_mock_bills keyword, n').
Proof.
  intro H. unfold search_bills_by_keyword, m_try.
  rewrite H. destruct e; reflexivity.
Qed.


Lemma body_request_raises (keyword : string) (limit : Z) (n : nat) (e : exn) :
  w n listing_url = Raise e -> body keyword limit n = (Raise e, S n).
Proof.
  intro H. unfold search_body, bind, requests_get.
  change (CONGRESS_API_BASE_URL ++ "/bill/" ++ PyStr.of_Z current_congress)
    with listing_url.
  rewrite H. reflexivity.
Qed.



(** C9.  With the upstream unreachable, searching for "healthcare" returns
    exactly the two canned bills of the topic "healthcare", HR3421 and
    S1247, and the URL of each contains [house-bill] or [senate-bill]. *)
Theorem healthcare_search_unreachable (limit : Z) (n : nat) :
  unreachable w ->
  exists b1 b2,
    fst (search "healthcare" limit n) = Ok [b1; b2]
    /\ [b1; b2] = map canonical_of_raw (topic_bills "healthcare")
    /\ id b1 = "HR3421" /\ id b2 = "S1247"
    /\ Forall (fun b => PyStr.contains "house-bill" (congress_url b)
                        || PyStr.contains "senate-bill" (congress_url b) = true)
         [b1; b2].
Proof.
  intro U. destruct (U n listing_url) as [e He].
  assert (search "healthcare" limit n = (_get_mock_bills "healthcare", S n)) as ->
    by (apply search_handler with e; now apply body_request_raises).
  do 2 eexists. split; [reflexivity |].
  split; [reflexivity |]. split; [reflexivity |]. split; [reflexivity |].
  repeat constructor.
Qed.

End KeywordSearch.

(** ** State search and its fallback *)

Section StateFallback.

Variable datetime : Type.
Variable fromisoformat : string -> Result datetime.
Variable strptime_ymd : string -> Result datetime.
Variable strftime_ymd : datetime -> string.
Variable py_hash : string -> Z.
Variable sort_by_updateDate_desc : list Bill -> Result (list Bill).
Variable w : World.

Local Abbreviation search_state :=
  (search_bills_by_state datetime fromisoformat strptime_ymd strftime_ymd
     py_hash sort_by_updateDate_desc w).

Lemma chamber_unreachable (chamber state_abbr : string) (n : nat) :
  unreachable w ->
  exists e, chamber_members w chamber state_abbr n = (Raise e, S n).
Proof.
  intro U. unfold chamber_members, bind, requests_get.
  destruct (U n (CONGRESS_API_BASE_URL ++ "/member/" ++ chamber ++ "/"
                   ++ PyStr.of_Z current_congress)) as [e ->].
  now exists e.
Qed.

Lemma members_unreachable (state : string) (n : nat) :
  unreachable w ->
  exists n', _get_members_by_state w state n = (Ok [], n').
Proof.
  intro U. unfold _get_members_by_state, m_try.
  destruct (_normalize_state state) as [state_abbr |]; [| now exists n].
  destruct (state_abbr =? EmptyString); [now exists n |].
  unfold bind at 1.
  destruct (chamber_unreachable "house" state_abbr n U) as [e ->].
  now exists (S n).
Qed.

Lemma search_state_no_members (state : string) (limit : Z) (n n' : nat) :
  _get_members_by_state w state n = (Ok [], n') ->
  search_state state limit n
    = (Ok (map canonical_of_raw (state_bills py_hash state)), n').
Proof.
  intro H. unfold search_bills_by_state, m_try, bind. rewrite H.
  unfold lift, _get_mock_bills_by_state. rewrite format_all_ok. reflexivity.
Qed.

Lemma mock_state_abbr_eq (state : string) :
  mock_state_abbr state =
    match _normalize_state state with
    | Some code => code
    | None => PyStr.upper state
    end.
Proof.
  unfold mock_state_abbr.
  destruct (_normalize_state state) as [code |] eqn:E; [| reflexivity].
  apply normalize_state_nonempty in E.
  destruct (String.eqb_spec code EmptyString); [contradiction | reflexivity].
Qed.

(** C8.  What the code does on the claim's own input: "Texas" is not
    normalized ([_normalize_state] returns [None]), so the string that is
    hashed is the upper-cased input "TEXAS" and not the state code "TX".
    For every upstream and every hash the search returns, without a single
    request, two bills numbered [abs(hash("TEXAS")) % 9000 + 1000] and
    [abs(hash("TEXASsenate")) % 2000 + 100]. *)
Theorem state_mock_texas (limit : Z) (n : nat) :
  _normalize_state "Texas" = None
  /\ mock_state_abbr "Texas" = "TEXAS"
  /\ exists hr s,
       search_state "Texas" limit n = (Ok [hr; s], n)
       /\ bill_type hr = "HR" /\ bill_type s = "S"
       /\ number hr = PStr (PyStr.of_Z (Z.abs (py_hash "TEXAS") mod 9000 + 1000))
       /\ number s = PStr (PyStr.of_Z (Z.abs (py_hash "TEXASsenate") mod 2000 + 100)).
Proof.
  split; [reflexivity | split; [reflexivity |]].
  rewrite (search_state_no_members "Texas" limit n n eq_refl).
  do 2 eexists. split; [reflexivity |]. repeat split.
Qed.

(** X19.  With the upstream forced to fail, two consecutive calls of
    [search_bills_by_state] for the same state return the same two bills,
    hence the same bill numbers: one House bill (HR) and one Senate bill
    (S), numbered [abs(hash(code)) % 9000 + 1000] and
    [abs(hash(code + "senate")) % 2000 + 100], where [code] is the state
    code [_normalize_state] gives and, when it gives none, the upper-cased
    input. *)
Theorem state_mock_deterministic (state : string) (limit limit' : Z) (n : nat) :
  unreachable w ->
  exists hr s,
    fst (search_state state limit n) = Ok [hr; s]
    /\ fst (search_state state limit' (snd (search_state state limit n))) = Ok [hr; s]
    /\ bill_type hr = "HR" /\ bill_type s = "S"
    /\ number hr =
         PStr (PyStr.of_Z (Z.abs (py_hash (mock_state_abbr state)) mod 9000 + 1000))
    /\ number s =
         PStr (PyStr.of_Z
                 (Z.abs (py_hash (mock_state_abbr state ++ "senate")) mod 2000 + 100))
    /\ mock_state_abbr state =
         match _normalize_state state with
         | Some code => code
         | None => PyStr.upper state
         end.
Proof.
  intro U.
  destruct (members_unreachable state n U) as [n1 H1].
  rewrite (search_state_no_members state limit n n1 H1). simpl snd.
  destruct (members_unreachable state n1 U) as [n2 H2].
  rewrite (search_state_no_members state limit' n1 n2 H2).
  do 2 eexists. repeat split. apply mock_state_abbr_eq.
Qed.

End StateFallback.

(** ** CSV export *)

Lemma csv_row_dict (bill : list (string * pyval)) :
  csv_row (PDict bill) = Ok (export_row bill).
Proof. reflexivity. Qed.

Lemma write_rows_dicts (bills : list (list (string * pyval)))
    (written : list (list pyval)) :
  write_rows (map PDict bills) written = Ok (written ++ map export_row bills)%list.
Proof.
  revert written. induction bills as [| bill rest IH]; intro written.
  - simpl. now rewrite app_nil_r.
  - cbn [map write_rows]. rewrite csv_row_dict. cbn [rbind].
    rewrite IH, <- app_assoc. reflexivity.
Qed.

Lemma forallb_map {A B} (f : B -> bool) (g : A -> B) (l : list A) :
  forallb f (map g l) = forallb (fun x => f (g x)) l.
Proof. induction l as [| x l IH]; simpl; [reflexivity | now rewrite IH]. Qed.

Lemma export_dicts (data : list (string * pyval)) (bills : list (list (string * pyval))) :
  bills <> [] ->
  Py.lookup "bills" data = Some (PList (map PDict bills)) ->
  api_export (PDict data) =
    if forallb row_encodable bills
    then CsvFile (csv_header :: map export_row bills)
    else JsonError 500 "An error occurred while exporting data".
Proof.
  intros N H. unfold api_export. cbn [Py.get rbind]. rewrite H.
  destruct bills as [| b rest]; [contradiction |].
  cbn [map Py.truthy negb Py.iter rbind].
  change (PDict b :: map PDict rest) with (map PDict (b :: rest)).
  rewrite write_rows_dicts. cbn [rbind app]. unfold make_response.
  change (forallb (forallb cell_encodable) (csv_header :: map export_row (b :: rest)))
    with (forallb (forallb cell_encodable) (map export_row (b :: rest))).
  rewrite forallb_map. fold row_encodable.
  change (fun x => forallb cell_encodable (export_row x)) with row_encodable.
  destruct (forallb row_encodable (b :: rest)); reflexivity.
Qed.

(** C6, as the code has it.  [api_export] rejects a request whose bill list
    is empty or absent with status 400 and writes nothing.  For a list of
    one bill whose cells can be encoded it writes the header row and one
    data row; for any non-empty list of such bills it writes the header row
    and then one row per bill, in the order of the list; a list with a bill
    one of whose cells cannot be encoded is answered with status 500.  The
    header is Bill ID, Title, Summary, Introduced Date, Sponsor, Type,
    Congress URL, and a data row holds the bill's id, title, summary,
    introduced_date, sponsor, bill_type and congress_url in that order. *)
Theorem export_rows_in_order (data : list (string * pyval)) :
  (Py.lookup "bills" data = None \/ Py.lookup "bills" data = Some (PList []) ->
     api_export (PDict data) = JsonError 400 "No bills to export")
  /\ (forall bill,
        Py.lookup "bills" data = Some (PList [PDict bill]) ->
        row_encodable bill = true ->
        api_export (PDict data) =
          CsvFile [ [ PStr "Bill ID"; PStr "Title"; PStr "Summary";
                      PStr "Introduced Date"; PStr "Sponsor"; PStr "Type";
                      PStr "Congress URL" ];
                    export_row bill ])
  /\ (forall bills,
        bills <> [] ->
        Py.lookup "bills" data = Some (PList (map PDict bills)) ->
        forallb row_encodable bills = true ->
        api_export (PDict data) =
          CsvFile ([ PStr "Bill ID"; PStr "Title"; PStr "Summary";
                     PStr "Introduced Date"; PStr "Sponsor"; PStr "Type";
                     PStr "Congress URL" ] :: map export_row bills))
  /\ (forall bills,
        bills <> [] ->
        Py.lookup "bills" data = Some (PList (map PDict bills)) ->
        forallb row_encodable bills = false ->
        api_export (PDict data)
          = JsonError 500 "An error occurred while exporting data")
  /\ (forall bill, List.length (export_row bill) = 7%nat).
Proof.
  split; [| split; [| split; [| split]]].
  - intros [H | H]; unfold api_export; cbn [Py.get rbind]; rewrite H; reflexivity.
  - intros bill H E. rewrite (export_dicts data [bill]); [| discriminate | exact H].
    cbn [forallb]. now rewrite E.
  - intros bills N H E. rewrite (export_dicts data bills N H). now rewrite E.
  - intros bills N H E. rewrite (export_dicts data bills N H). now rewrite E.
  - reflexivity.
Qed.

(** ** Summary enrichment *)

Lemma prefix_app (t b : string) : String.prefix t (t ++ b) = true.
Proof.
  induction t as [| c t IH]; simpl.
  - now destruct b.
  - destruct (ascii_dec c c) as [_ | N]; [exact IH | contradiction].
Qed.

Lemma contains_prefix (t s : string) :
  String.prefix t s = true -> PyStr.contains t s = true.
Proof. intro H. destruct s; cbn [PyStr.contains]; rewrite H; reflexivity. Qed.

Lemma contains_app_l (t a s : string) :
  PyStr.contains t s = true -> PyStr.contains t (a ++ s) = true.
Proof.
  intro H. induction a as [| c a IH]; [exact H |].
  change (String c a ++ s) with (String c (a ++ s)).
  cbn [PyStr.contains]. rewrite IH. apply orb_true_r.
Qed.

(** A text made of a fixed start, the topic and a fixed end mentions the
    topic. *)
Lemma contains_middle (a t b : string) : PyStr.contains t (a ++ t ++ b) = true.
Proof. apply contains_app_l, contains_prefix, prefix_app. Qed.

Section EnrichmentFacts.

Variable HUGGINGFACE_API_KEY : option string.
Variable w : World.

Local Abbreviation summarize := (get_llm_summary HUGGINGFACE_API_KEY w).
Local Abbreviation configured := (key_configured HUGGINGFACE_API_KEY).

(** C7, as the code has it.  [get_llm_summary] never raises.  Without a
    credential it returns the "API key required" text.  With a credential,
    a call that raises gives the "AI summary unavailable" text, and an
    answer that is not status 200 with a non-empty list gives the "This bill
    addresses" text.  These three canned texts are not empty and mention
    the topic.  In the one remaining case, status 200 with a list whose
    first element is an object, the result is that object's [summary_text]
    as received, or "Summary not available" when the key is absent. *)
Theorem enrichment_never_raises (bill_text : pyval) (topic : string) (n : nat) :
  exists v n',
    summarize bill_text topic n = (Ok v, n')
    /\ (configured = false -> v = PStr (no_key_summary topic))
    /\ (configured = true -> call_raised w bill_text n = true ->
          v = PStr (unavailable_summary topic))
    /\ (configured = true -> call_raised w bill_text n = false ->
          answer_unusable w n = true -> v = PStr (fallback_summary topic))
    /\ (configured = true -> call_raised w bill_text n = false ->
          answer_unusable w n = false ->
          exists r first rest,
            w n HUGGINGFACE_API_URL = Ok r /\ status_code r = 200%Z
            /\ json r = Ok (PList (PDict first :: rest))
            /\ v = match Py.lookup "summary_text" first with
                   | Some text => text
                   | None => PStr "Summary not available"
                   end)
    /\ Forall (fun canned => canned <> EmptyString /\ PyStr.contains topic canned = true)
         [no_key_summary topic; fallback_summary topic; unavailable_summary topic].
Proof.
  assert (Forall (fun canned => canned <> EmptyString /\ PyStr.contains topic canned = true)
            [no_key_summary topic; fallback_summary topic; unavailable_summary topic]) as C.
  { repeat constructor; try discriminate;
      unfold no_key_summary, fallback_summary, unavailable_summary;
      apply contains_middle. }
  unfold get_llm_summary, m_try, call_raised, answer_unusable, requests_post.
  destruct configured eqn:K; cbn [negb].
  2:{ do 2 eexists. split; [reflexivity |]. repeat split; try discriminate; exact C. }
  unfold bind at 1. unfold lift at 1.
  destruct (slice_1000 bill_text) as [excerpt | e].
  2:{ do 2 eexists. split; [reflexivity |]. repeat split; try discriminate; exact C. }
  unfold bind at 1.
  destruct (w n HUGGINGFACE_API_URL) as [r | e] eqn:W.
  2:{ do 2 eexists. split; [reflexivity |]. repeat split; try discriminate; exact C. }
  destruct (status_code r =? 200)%Z eqn:S; cbn [negb andb orb].
  2:{ do 2 eexists. split; [reflexivity |]. repeat split; try discriminate; exact C. }
  unfold bind, lift, ret.
  destruct (json r) as [[| b | z | nz shown | s | [| first rest] | d] | e] eqn:J;
    try (do 2 eexists; split; [reflexivity |]; repeat split; try discriminate; exact C).
  destruct first as [| b | z | nz shown | s | l | first];
    try (do 2 eexists; split; [reflexivity |]; repeat split; try discriminate; exact C).
  do 2 eexists. split; [reflexivity |].
  repeat split; try discriminate; try exact C.
  intros _ _ _. exists r, first, rest. apply Z.eqb_eq in S. auto.
Qed.

End EnrichmentFacts.

(** ** Fields of the records of a keyword search *)

Section RecordFields.
Variable datetime : Type.
Variable fromisoformat : string -> Result datetime.
Variable strptime_ymd : string -> Result datetime.
Variable strftime_ymd : datetime -> string.

Local Abbreviation fmt_date := (_format_date datetime fromisoformat strptime_ymd strftime_ymd).
Local Abbreviation basic := (_format_basic_bill datetime fromisoformat strptime_ymd strftime_ymd).
Local Abbreviation detailed := (_format_detailed_bill datetime fromisoformat strptime_ymd strftime_ymd).





Lemma get_dict (d : list (string * pyval)) (key : string) (default : pyval) :
  Py.get (PDict d) key default = Ok (value_or key d default).
Proof. reflexivity. Qed.



(** What a record built by [_format_basic_bill] holds. *)
Lemma basic_inv (bill : pyval) (b : Bill) :
  basic bill = Some b ->
  exists d ty s,
    bill = PDict d
    /\ value_or "type" d (PStr EmptyString) = PStr ty
    /\ bill_type b = PyStr.upper ty
    /\ number b = value_or "number" d (PStr "N/A")
    /\ id b = bill_type b ++ Py.str (number b)
    /\ congress_url b = congress_url_of (bill_type b) (number b)
    /\ title b = value_or "title" d (PStr "No title available")
    /\ _get_bill_summary bill = Ok s /\ summary b = PStr s
    /\ introduced_date b =
         fmt_date (value_or "introducedDate" d (value_or "updateDate" d (PStr EmptyString)))
    /\ _get_sponsor_info_from_bill bill = Ok (sponsor b)
    /\ updateDate b = value_or "updateDate" d (PStr EmptyString).
Proof.
  unfold _format_basic_bill, try_except.
  destruct bill as [| | | | | | d]; try discriminate.
  rewrite !get_dict. cbn [rbind].
  destruct (value_or "type" d (PStr EmptyString)) as [| | | | ty | |] eqn:T; try discriminate.
  cbn [Py.upper rbind]. rewrite generate_congress_url_eq. cbn [rbind].
  destruct (_get_bill_summary (PDict d)) as [s | e] eqn:S; [| discriminate]. cbn [rbind].
  destruct (_get_sponsor_info_from_bill (PDict d)) as [sp | e] eqn:P; [| discriminate].
  cbn [rbind]. intro H. injection H as <-.
  exists d, ty, s. cbn. repeat split; auto.
Qed.

Lemma first_summary_ok (d : list (string * pyval)) (fields : list string) :
  exists s, first_summary (PDict d) fields = Ok s /\ s <> EmptyString.
Proof.
  induction fields as [| field rest IH]; cbn [first_summary].
  - eexists. split; [reflexivity | discriminate].
  - rewrite get_dict. cbn [rbind].
    destruct (value_or field d PNone) as [| | | | s | |]; try exact IH.
    destruct (Py.truthy (PStr s) && negb (PyStr.strip s =? EmptyString)) eqn:C;
      [| exact IH].
    exists (PyStr.strip s). split; [reflexivity |].
    apply andb_true_iff in C as [_ C]. apply negb_true_iff in C.
    now apply String.eqb_neq in C.
Qed.





(** What a record built by [_format_detailed_bill] holds. *)
Lemma detailed_inv (bill : pyval) (b : Bill) :
  detailed bill = Some b ->
  exists d ty,
    bill = PDict d
    /\ value_or "type" d (PStr EmptyString) = PStr ty
    /\ bill_type b = PyStr.upper ty
    /\ number b = value_or "number" d (PStr "N/A")
    /\ id b = bill_type b ++ Py.str (number b)
    /\ congress_url b = congress_url_of (bill_type b) (number b)
    /\ title b = value_or "title" d (PStr "No title available")
    /\ detailed_summary bill = Ok (summary b)
    /\ introduced_date b = fmt_date (value_or "introducedDate" d (PStr EmptyString))
    /\ _get_sponsor_info_from_bill bill = Ok (sponsor b)
    /\ updateDate b = value_or "updateDate" d (PStr EmptyString).
Proof.
  unfold _format_detailed_bill, try_except.
  destruct bill as [| | | | | | d]; try discriminate.
  rewrite !get_dict. cbn [rbind].
  destruct (value_or "type" d (PStr EmptyString)) as [| | | | ty | |] eqn:T; try discriminate.
  cbn [Py.upper rbind]. rewrite generate_congress_url_eq. cbn [rbind].
  destruct (detailed_summary (PDict d)) as [s | e] eqn:S; [| discriminate]. cbn [rbind].
  destruct (_get_sponsor_info_from_bill (PDict d)) as [sp | e] eqn:P; [| discriminate].
  cbn [rbind]. intro H. injection H as <-.
  exists d, ty. cbn. repeat split; auto.
Qed.

(** The text fields of a record are strings. *)





Section DetailLoop.
Variable w : World.

Local Abbreviation details := (_get_bill_details datetime fromisoformat strptime_ymd strftime_ymd w).
Local Abbreviation loop := (details_loop datetime fromisoformat strptime_ymd strftime_ymd w).

(** Where a record returned by [_get_bill_details] comes from. *)
Lemma details_inv (bill : pyval) (n n' : nat) (r : option Bill) :
  details bill n = (Ok r, n') ->
  r = basic bill
  \/ exists k url resp data detail,
       w k url = Ok resp /\ json resp = Ok data
       /\ Py.get data "bill" (PDict []) = Ok detail
       /\ r = detailed detail.
Proof.
  unfold _get_bill_details, m_try, bind, lift, ret, requests_get.
  destruct (Py.get bill "number" PNone) as [bill_number | e];
    [| intro H; injection H as <- _; now left].
  destruct (Py.get bill "type" (PStr EmptyString)) as [ty | e];
    [| intro H; injection H as <- _; now left].
  destruct (Py.lower ty) as [bill_type | e];
    [| intro H; injection H as <- _; now left].
  destruct (negb (Py.truthy bill_number) || (bill_type =? EmptyString));
    [intro H; injection H as <- _; now left |].
  match goal with |- context [w n ?u] => set (url := u) end.
  destruct (w n url) as [resp | e] eqn:W;
    [| intro H; injection H as <- _; now left].
  destruct (status_code resp =? 200)%Z;
    [| intro H; injection H as <- _; now left].
  destruct (json resp) as [data | e] eqn:J;
    [| intro H; injection H as <- _; now left].
  destruct (Py.get data "bill" (PDict [])) as [detail | e] eqn:G;
    [| intro H; injection H as <- _; now left].
  intro H; injection H as <- _. right. now exists n, url, resp, data, detail.
Qed.







Local Abbreviation search :=
  (search_bills_by_keyword datetime fromisoformat strptime_ymd strftime_ymd w).

Lemma search_inv (keyword : string) (limit : Z) (n n' : nat) (bills : list Bill) :
  search keyword limit n = (Ok bills, n') ->
  _get_mock_bills keyword = Ok bills
  \/ exists resp data listed items filtered n1,
       w n listing_url = Ok resp /\ json resp = Ok data
       /\ Py.get data "bills" (PList []) = Ok listed
       /\ Py.iter listed = Ok items
       /\ filter_loop (PyStr.lower keyword) items = Ok filtered
       /\ loop (Py.slice_to filtered limit) n1 = (Ok bills, n').
Proof.
  unfold search_bills_by_keyword, m_try.
  destruct (search_body _ _ _ _ w keyword limit n) as [[bs | e] n1] eqn:B.
  2:{ intro H. left. destruct e; unfold lift in H; now injection H as -> _. }
  intro H; injection H as <- <-. right.
  unfold search_body, bind, requests_get, lift in B.
  change (CONGRESS_API_BASE_URL ++ "/bill/" ++ PyStr.of_Z current_congress)
    with listing_url in B.
  destruct (w n listing_url) as [resp | e] eqn:W; [| discriminate].
  destruct (raise_for_status resp); [| discriminate].
  destruct (json resp) as [data | e] eqn:J; [| discriminate].
  destruct (Py.get data "bills" (PList [])) as [listed | e] eqn:G; [| discriminate].
  unfold _filter_bills_by_keyword in B.
  destruct (Py.iter listed) as [items | e] eqn:I; [| discriminate].
  cbn [rbind] in B.
  destruct (filter_loop (PyStr.lower keyword) items) as [filtered | e] eqn:Fl;
    [| discriminate].
  now exists resp, data, listed, items, filtered, (S n).
Qed.

End DetailLoop.









Section KeywordFields.
Variable w : World.
Local Abbreviation search :=
  (search_bills_by_keyword datetime fromisoformat strptime_ymd strftime_ymd w).

End KeywordFields.
End RecordFields.

(** * Further properties of the code *)

(** ** Case of state codes *)

Lemma to_upper_idem (c : ascii) : PyStr.to_upper (PyStr.to_upper c) = PyStr.to_upper c.
Proof. destruct c as [[] [] [] [] [] [] [] []]; reflexivity. Qed.

Lemma to_upper_lower (c : ascii) : PyStr.to_upper (PyStr.to_lower c) = PyStr.to_upper c.
Proof. destruct c as [[] [] [] [] [] [] [] []]; reflexivity. Qed.

Lemma to_upper_bytes (c : ascii) :
  (nat_of_ascii (PyStr.to_upper c) <? 128)%nat = (nat_of_ascii c <? 128)%nat
  /\ PyStr.is_continuation (PyStr.to_upper c) = PyStr.is_continuation c.
Proof. destruct c as [[] [] [] [] [] [] [] []]; split; reflexivity. Qed.

Lemma to_lower_bytes (c : ascii) :
  (nat_of_ascii (PyStr.to_lower c) <? 128)%nat = (nat_of_ascii c <? 128)%nat
  /\ PyStr.is_continuation (PyStr.to_lower c) = PyStr.is_continuation c.
Proof. destruct c as [[] [] [] [] [] [] [] []]; split; reflexivity. Qed.

Lemma ascii_upper_ascii (s : string) :
  PyStr.is_ascii (PyStr.ascii_upper s) = PyStr.is_ascii s.
Proof.
  unfold PyStr.ascii_upper. induction s as [| c s IH]; [reflexivity |].
  cbn [PyStr.smap PyStr.is_ascii]. now rewrite IH, (proj1 (to_upper_bytes c)).
Qed.

Lemma ascii_lower_ascii (s : string) :
  PyStr.is_ascii (PyStr.ascii_lower s) = PyStr.is_ascii s.
Proof.
  unfold PyStr.ascii_lower. induction s as [| c s IH]; [reflexivity |].
  cbn [PyStr.smap PyStr.is_ascii]. now rewrite IH, (proj1 (to_lower_bytes c)).
Qed.

Lemma ascii_upper_len (s : string) : PyStr.len (PyStr.ascii_upper s) = PyStr.len s.
Proof.
  unfold PyStr.ascii_upper. induction s as [| c s IH]; [reflexivity |].
  cbn [PyStr.smap PyStr.len]. now rewrite IH, (proj2 (to_upper_bytes c)).
Qed.

Lemma ascii_lower_len (s : string) : PyStr.len (PyStr.ascii_lower s) = PyStr.len s.
Proof.
  unfold PyStr.ascii_lower. induction s as [| c s IH]; [reflexivity |].
  cbn [PyStr.smap PyStr.len]. now rewrite IH, (proj2 (to_lower_bytes c)).
Qed.

Lemma ascii_upper_idem (s : string) :
  PyStr.ascii_upper (PyStr.ascii_upper s) = PyStr.ascii_upper s.
Proof.
  unfold PyStr.ascii_upper. induction s as [| c s IH]; simpl; [reflexivity |].
  now rewrite to_upper_idem, IH.
Qed.

Lemma ascii_upper_lower (s : string) :
  PyStr.ascii_upper (PyStr.ascii_lower s) = PyStr.ascii_upper s.
Proof.
  unfold PyStr.ascii_upper, PyStr.ascii_lower.
  induction s as [| c s IH]; simpl; [reflexivity |].
  now rewrite to_upper_lower, IH.
Qed.

(** An upper-cased string is its own upper case. *)
Lemma upper_idem (s : string) : PyStr.upper (PyStr.upper s) = PyStr.upper s.
Proof.
  unfold PyStr.upper. destruct (PyStr.is_ascii s) eqn:A.
  - now rewrite ascii_upper_ascii, A, ascii_upper_idem.
  - now apply PyStr.uni_upper_fixed.
Qed.

Lemma upper_of_ascii (s : string) :
  PyStr.is_ascii s = true -> PyStr.upper s = PyStr.ascii_upper s.
Proof. unfold PyStr.upper. now intros ->. Qed.

Lemma lower_of_ascii (s : string) :
  PyStr.is_ascii s = true -> PyStr.lower s = PyStr.ascii_lower s.
Proof. unfold PyStr.lower. now intros ->. Qed.

Lemma upper_lower (s : string) :
  PyStr.is_ascii s = true -> PyStr.upper (PyStr.lower s) = PyStr.upper s.
Proof.
  intro A. rewrite (lower_of_ascii s A), !upper_of_ascii;
    [apply ascii_upper_lower | exact A | now rewrite ascii_lower_ascii].
Qed.

Lemma normalize_state_codes :
  Forall (fun code => _normalize_state code = Some code /\ PyStr.len code = 2%nat)
    (map snd state_mapping).
Proof. repeat constructor. Qed.

(** X1.  [_normalize_state] does not look at the case of an ASCII input:
    the upper-cased and the lower-cased input give what the input gives.
    A code it returns, for any input, has two characters, is one of the
    codes of the table, and normalizes to itself. *)
Theorem normalize_state_case (s : string) :
  (PyStr.is_ascii s = true ->
     _normalize_state (PyStr.upper s) = _normalize_state s
     /\ _normalize_state (PyStr.lower s) = _normalize_state s)
  /\ (forall code, _normalize_state s = Some code ->
        _normalize_state code = Some code
        /\ PyStr.len code = 2%nat
        /\ In code (map snd state_mapping)).
Proof.
  split.
  - intro A. split.
    + unfold _normalize_state. rewrite upper_idem.
      now rewrite (upper_of_ascii s A) at 1; rewrite ascii_upper_len.
    + unfold _normalize_state. rewrite (upper_lower s A).
      now rewrite (lower_of_ascii s A) at 1; rewrite ascii_lower_len.
  - intros code H. pose proof (normalize_state_some s code H) as (_ & _ & V).
    apply in_values_code in V.
    pose proof (proj1 (Forall_forall _ _) normalize_state_codes code V) as [N L].
    auto.
Qed.

(** ** The keyword filter *)

Lemma contains_empty (s : string) : PyStr.contains EmptyString s = true.
Proof. destruct s; reflexivity. Qed.

Lemma filter_loop_titled (kl : string) (items : list pyval) :
  forallb well_titled items = true ->
  filter_loop kl items =
    Ok (filter (fun v => match listed_title v with
                         | Some t => PyStr.contains kl (PyStr.lower t)
                         | None => false
                         end) items).
Proof.
  induction items as [| bill rest IH]; [reflexivity |].
  cbn [forallb]. intro H. apply andb_true_iff in H as [Hb Hr].
  cbn [filter_loop filter]. rewrite (IH Hr).
  unfold well_titled, listed_title in *.
  destruct bill as [| | | | | | d]; try discriminate.
  rewrite get_dict. cbn [rbind].
  destruct (value_or "title" d (PStr EmptyString)); try discriminate.
  reflexivity.
Qed.

Lemma filter_loop_malformed (kl : string) (items : list pyval) :
  existsb (fun v => negb (well_titled v)) items = true ->
  filter_loop kl items = Raise AttributeError.
Proof.
  induction items as [| bill rest IH]; [discriminate |].
  cbn [existsb filter_loop]. intro H.
  destruct (well_titled bill) eqn:Wb.
  - cbn [negb orb] in H. rewrite (IH H).
    unfold well_titled, listed_title in Wb.
    destruct bill as [| | | | | | d]; try discriminate.
    rewrite get_dict. cbn [rbind].
    destruct (value_or "title" d (PStr EmptyString)); try discriminate.
    reflexivity.
  - unfold well_titled, listed_title in Wb.
    destruct bill as [| | | | | | d]; try reflexivity.
    rewrite get_dict. cbn [rbind].
    destruct (value_or "title" d (PStr EmptyString)); try discriminate; reflexivity.
Qed.

Lemma to_lower_upper (c : ascii) : PyStr.to_lower (PyStr.to_upper c) = PyStr.to_lower c.
Proof. destruct c as [[] [] [] [] [] [] [] []]; reflexivity. Qed.

Lemma ascii_lower_upper (s : string) :
  PyStr.ascii_lower (PyStr.ascii_upper s) = PyStr.ascii_lower s.
Proof.
  unfold PyStr.ascii_upper, PyStr.ascii_lower.
  induction s as [| c s IH]; simpl; [reflexivity |].
  now rewrite to_lower_upper, IH.
Qed.

Lemma lower_upper (s : string) :
  PyStr.is_ascii s = true -> PyStr.lower (PyStr.upper s) = PyStr.lower s.
Proof.
  intro A. rewrite (upper_of_ascii s A), !lower_of_ascii;
    [apply ascii_lower_upper | exact A | now rewrite ascii_upper_ascii].
Qed.

Lemma filter_all {A} (f : A -> bool) (l : list A) :
  forallb f l = true -> filter f l = l.
Proof.
  induction l as [| x l IH]; [reflexivity |].
  cbn [forallb filter]. intro H. apply andb_true_iff in H as [-> H].
  now rewrite IH.
Qed.

(** X2.  On a listing all of whose items are objects with a string title
    (or none), [_filter_bills_by_keyword] does not raise and keeps exactly
    the items whose lower-cased title contains the lower-cased keyword, in
    the order of the listing.  The empty keyword keeps every item, and the
    case of an ASCII keyword does not matter. *)
Theorem filter_bills_by_keyword_spec (bills : list pyval) (keyword : string) :
  forallb well_titled bills = true ->
  _filter_bills_by_keyword (PList bills) keyword = Ok (filter (title_has keyword) bills)
  /\ _filter_bills_by_keyword (PList bills) EmptyString = Ok bills
  /\ (PyStr.is_ascii keyword = true ->
        _filter_bills_by_keyword (PList bills) (PyStr.upper keyword)
        = _filter_bills_by_keyword (PList bills) keyword).
Proof.
  intro H. unfold _filter_bills_by_keyword. cbn [Py.iter rbind].
  rewrite !(filter_loop_titled _ bills H).
  split; [reflexivity | split].
  - f_equal. apply filter_all.
    apply forallb_forall. intros b I.
    assert (well_titled b = true) as Wb by (now apply (proj1 (forallb_forall _ _) H)).
    unfold well_titled in Wb. destruct (listed_title b); [| discriminate].
    apply contains_empty.
  - intro A. now rewrite (lower_upper keyword A).
Qed.

Section KeywordExtras.
Variable datetime : Type.
Variable fromisoformat : string -> Result datetime.
Variable strptime_ymd : string -> Result datetime.
Variable strftime_ymd : datetime -> string.
Variable w : World.

Local Abbreviation basic := (_format_basic_bill datetime fromisoformat strptime_ymd strftime_ymd).
Local Abbreviation detailed := (_format_detailed_bill datetime fromisoformat strptime_ymd strftime_ymd).
Local Abbreviation details := (_get_bill_details datetime fromisoformat strptime_ymd strftime_ymd w).
Local Abbreviation loop := (details_loop datetime fromisoformat strptime_ymd strftime_ymd w).
Local Abbreviation search :=
  (search_bills_by_keyword datetime fromisoformat strptime_ymd strftime_ymd w).
Local Abbreviation body :=
  (search_body datetime fromisoformat strptime_ymd strftime_ymd w).

(** X3.  One listed item that is not an object, or whose title is not a
    string, is enough to lose every real result: the filter raises, and
    [search_bills_by_keyword] answers with the mock bills of the keyword
    after its single listing request. *)
Theorem malformed_listing_gives_mock (keyword : string) (limit : Z) (n : nat)
    (resp : Response) (d : list (string * pyval)) (listed : list pyval) :
  w n listing_url = Ok resp ->
  raise_for_status resp = Ok tt ->
  json resp = Ok (PDict d) ->
  Py.lookup "bills" d = Some (PList listed) ->
  existsb (fun v => negb (well_titled v)) listed = true ->
  search keyword limit n = (_get_mock_bills keyword, S n).
Proof.
  intros W St J L E.
  apply search_handler with AttributeError.
  unfold search_body, bind, requests_get, lift.
  change (CONGRESS_API_BASE_URL ++ "/bill/" ++ PyStr.of_Z current_congress)
    with listing_url.
  rewrite W, St, J. cbn [Py.get]. rewrite L.
  unfold _filter_bills_by_keyword. cbn [Py.iter rbind].
  now rewrite (filter_loop_malformed _ listed E).
Qed.

Lemma details_total (bill : pyval) (n : nat) :
  exists r n', details bill n = (Ok r, n') /\ (n' = n \/ n' = S n).
Proof.
  unfold _get_bill_details, m_try, bind, lift, ret, requests_get.
  destruct (Py.get bill "number" PNone) as [bill_number | e]; [| eauto].
  destruct (Py.get bill "type" (PStr EmptyString)) as [ty | e]; [| eauto].
  destruct (Py.lower ty) as [bill_type | e]; [| eauto].
  destruct (negb (Py.truthy bill_number) || (bill_type =? EmptyString)); [eauto |].
  match goal with |- context [w n ?u] => destruct (w n u) as [resp | e] end; [| eauto].
  destruct (status_code resp =? 200)%Z; [| eauto].
  destruct (json resp) as [data | e]; [| eauto].
  destruct (Py.get data "bill" (PDict [])) as [detail | e]; eauto.
Qed.

(** X4.  [_get_bill_details] never raises and sends at most one request.
    For a bill without number or without type it sends none and returns the
    basic formatting; when the upstream cannot be reached it returns the
    basic formatting as well. *)
Theorem get_bill_details_never_raises (bill : pyval) (n : nat) :
  (exists r n', details bill n = (Ok r, n') /\ (n' = n \/ n' = S n))
  /\ (forall d,
        bill = PDict d ->
        Py.truthy (value_or "number" d PNone) = false
          \/ value_or "type" d (PStr EmptyString) = PStr EmptyString ->
        details bill n = (Ok (basic bill), n))
  /\ (unreachable w -> exists n', details bill n = (Ok (basic bill), n')).
Proof.
  split; [| split].
  - apply details_total.
  - intros d -> H.
    unfold _get_bill_details, m_try, bind, lift, ret. rewrite !get_dict.
    destruct H as [H | H]; rewrite H.
    + destruct (value_or "type" d (PStr EmptyString)); reflexivity.
    + cbn [Py.lower PyStr.lower PyStr.smap String.eqb]. now rewrite orb_true_r.
  - intro U.
    unfold _get_bill_details, m_try, bind, lift, ret, requests_get.
    destruct (Py.get bill "number" PNone) as [bill_number | e]; [| eauto].
    destruct (Py.get bill "type" (PStr EmptyString)) as [ty | e]; [| eauto].
    destruct (Py.lower ty) as [bill_type | e]; [| eauto].
    destruct (negb (Py.truthy bill_number) || (bill_type =? EmptyString)); [eauto |].
    match goal with |- context [w n ?u] => destruct (U n u) as [e ->] end. eauto.
Qed.

Lemma loop_total (items : list pyval) (n : nat) :
  exists bills n',
    loop items n = (Ok bills, n')
    /\ (n <= n' <= n + List.length items)%nat
    /\ (List.length bills <= List.length items)%nat.
Proof.
  revert n. induction items as [| bill rest IH]; intro n.
  - exists [], n. cbn. repeat split; lia.
  - cbn [details_loop]. unfold bind at 1.
    destruct (details_total bill n) as (r & n1 & -> & Hn).
    unfold bind at 1.
    destruct (IH n1) as (bs & n2 & -> & Hc & Hl).
    unfold ret. destruct r as [b |]; do 2 eexists;
      (split; [reflexivity |]); cbn [List.length]; split; lia.
Qed.

Lemma slice_to_length {A} (l : list A) (limit : Z) :
  (0 <= limit)%Z -> (List.length (Py.slice_to l limit) <= Z.to_nat limit)%nat.
Proof.
  intro H. unfold Py.slice_to. apply Z.leb_le in H. rewrite H.
  rewrite length_firstn. lia.
Qed.

Lemma body_count (keyword : string) (limit : Z) (n n' : nat) (r : Result (list Bill)) :
  (0 <= limit)%Z ->
  body keyword limit n = (r, n') ->
  (S n <= n' <= S n + Z.to_nat limit)%nat
  /\ (forall bills, r = Ok bills -> (List.length bills <= Z.to_nat limit)%nat).
Proof.
  intros Hl. unfold search_body, bind, requests_get, lift.
  destruct (w n _) as [resp | e]; [| intro H; injection H as <- <-; split; [lia | discriminate]].
  destruct (raise_for_status resp); [| intro H; injection H as <- <-; split; [lia | discriminate]].
  destruct (json resp) as [data | e]; [| intro H; injection H as <- <-; split; [lia | discriminate]].
  destruct (Py.get data "bills" (PList [])) as [listed | e];
    [| intro H; injection H as <- <-; split; [lia | discriminate]].
  destruct (_filter_bills_by_keyword listed keyword) as [filtered | e];
    [| intro H; injection H as <- <-; split; [lia | discriminate]].
  destruct (loop_total (Py.slice_to filtered limit) (S n)) as (bs & n2 & -> & Hc & Hb).
  pose proof (slice_to_length filtered limit Hl) as Hs.
  intro H; injection H as <- <-. split; [lia |].
  intros bills E. injection E as <-. lia.
Qed.

(** X5.  For a limit that is not negative, a keyword search that reaches
    its end without an exception returns at most [limit] bills, and every
    keyword search sends the listing request and at most [limit] detail
    requests. *)
Theorem search_by_keyword_bounds (keyword : string) (limit : Z) (n : nat) :
  (0 <= limit)%Z ->
  (forall bills n',
     search_body datetime fromisoformat strptime_ymd strftime_ymd w keyword limit n
       = (Ok bills, n') ->
     (List.length bills <= Z.to_nat limit)%nat)
  /\ (forall r n',
        search_bills_by_keyword datetime fromisoformat strptime_ymd strftime_ymd w
          keyword limit n = (r, n') ->
        (S n <= n' <= S n + Z.to_nat limit)%nat).
Proof.
  intro Hl. split.
  - intros bills n' B. now apply (proj2 (body_count keyword limit n n' _ Hl B)).
  - intros r n'. unfold search_bills_by_keyword, m_try.
    destruct (body keyword limit n) as [[bs | e] n1] eqn:B;
      pose proof (proj1 (body_count keyword limit n n1 _ Hl B)) as Hc.
    + intro H; injection H as _ <-. exact Hc.
    + destruct e; unfold lift; intro H; injection H as _ <-; exact Hc.
Qed.

(** Records are consistent *)

Lemma basic_consistent (bill : pyval) (b : Bill) :
  basic bill = Some b -> consistent b.
Proof.
  intro H. apply basic_inv in H
    as (d & ty & s & _ & _ & Bt & _ & I & U & _).
  repeat split; [exact I | exact U |]. rewrite Bt. apply upper_idem.
Qed.

Lemma detailed_consistent (bill : pyval) (b : Bill) :
  detailed bill = Some b -> consistent b.
Proof.
  intro H. apply detailed_inv in H
    as (d & ty & _ & _ & Bt & _ & I & U & _).
  repeat split; [exact I | exact U |]. rewrite Bt. apply upper_idem.
Qed.

Lemma loop_Forall (P : Bill -> Prop) (items : list pyval) (n n' : nat) (bills : list Bill) :
  (forall bill b, basic bill = Some b -> P b) ->
  (forall bill b, detailed bill = Some b -> P b) ->
  loop items n = (Ok bills, n') -> Forall P bills.
Proof.
  intros Pb Pd. revert n n' bills.
  induction items as [| bill rest IH]; intros n n' bills H.
  - injection H as <- _. constructor.
  - cbn [details_loop] in H. unfold bind at 1 in H.
    destruct (details bill n) as [[r | e] n1] eqn:D; [| discriminate].
    unfold bind at 1 in H.
    destruct (loop rest n1) as [[bs | e] n2] eqn:L; [| discriminate].
    injection H as <- _. specialize (IH _ _ _ L).
    destruct r as [b |]; [| exact IH]. constructor; [| exact IH].
    apply details_inv in D as [B | (k & url & resp & data & detail & _ & _ & _ & B)];
      symmetry in B; eauto.
Qed.

Lemma canonical_consistent (r : RawBill) :
  PyStr.upper (raw_type r) = raw_type r -> consistent (canonical_of_raw r).
Proof. intro H. repeat split. exact H. Qed.

Lemma mock_consistent (keyword : string) (mock : list Bill) :
  _get_mock_bills keyword = Ok mock -> Forall consistent mock.
Proof.
  rewrite get_mock_bills_eq. intro H; injection H as <-.
  apply Forall_map.
  assert (Forall (fun r => consistent (canonical_of_raw r))
            (flat_map snd (matched_topics keyword))) as M.
  { apply Forall_flat_map. unfold matched_topics.
    apply Forall_forall. intros entry In. apply filter_In in In as [In _].
    revert entry In. apply Forall_forall.
    repeat constructor; apply canonical_consistent; reflexivity. }
  destruct (matched_topics keyword); [| exact M].
  repeat constructor; apply canonical_consistent; reflexivity.
Qed.

(** X6.  Every record [search_bills_by_keyword] returns, from upstream or
    from the mock tables, is consistent: its id is its type followed by its
    number, its URL is the one [_generate_congress_url] builds for its type
    and number, and its type is in upper case. *)
Theorem search_by_keyword_consistent (keyword : string) (limit : Z) (n n' : nat)
    (bills : list Bill) :
  search keyword limit n = (Ok bills, n') -> Forall consistent bills.
Proof.
  intro H. apply search_inv in H
    as [M | (resp & data & listed & items & filtered & n1 & _ & _ & _ & _ & _ & L)].
  - now apply mock_consistent with keyword.
  - apply loop_Forall with (3 := L).
    + exact basic_consistent.
    + exact detailed_consistent.
Qed.

End KeywordExtras.

Section StateExtras.
Variable datetime : Type.
Variable fromisoformat : string -> Result datetime.
Variable strptime_ymd : string -> Result datetime.
Variable strftime_ymd : datetime -> string.
Variable py_hash : string -> Z.
Variable sort_by_updateDate_desc : list Bill -> Result (list Bill).
Variable w : World.

Local Abbreviation search_state :=
  (search_bills_by_state datetime fromisoformat strptime_ymd strftime_ymd
     py_hash sort_by_updateDate_desc w).
Local Abbreviation sponsored :=
  (_get_member_sponsored_bills datetime fromisoformat strptime_ymd strftime_ymd w).
Local Abbreviation sponsored_all :=
  (sponsored_loop datetime fromisoformat strptime_ymd strftime_ymd w).

Lemma chamber_count (chamber code : string) (n n' : nat) (r : Result (list pyval)) :
  chamber_members w chamber code n = (r, n') -> n' = S n.
Proof.
  unfold chamber_members, bind, requests_get, lift, ret.
  destruct (w n _) as [resp | e]; [| now intro H; injection H].
  destruct (status_code resp =? 200)%Z; [| now intro H; injection H].
  destruct (json resp) as [data | e]; [| now intro H; injection H].
  destruct (Py.get data "members" (PList [])) as [ms | e]; [| now intro H; injection H].
  destruct (Py.iter ms) as [items | e]; now intro H; injection H.
Qed.

Lemma members_total (state : string) (n : nat) :
  exists ms n',
    _get_members_by_state w state n = (Ok ms, n') /\ (n <= n' <= n + 2)%nat.
Proof.
  unfold _get_members_by_state, m_try.
  destruct (_normalize_state state) as [code |];
    [| exists [], n; split; [reflexivity | lia]].
  destruct (code =? EmptyString); [exists [], n; split; [reflexivity | lia] |].
  unfold bind at 1.
  destruct (chamber_members w "house" code n) as [[h | e] n1] eqn:H;
    apply chamber_count in H; subst n1.
  2:{ exists [], (S n). split; [reflexivity | lia]. }
  unfold bind at 1.
  destruct (chamber_members w "senate" code (S n)) as [[s | e] n2] eqn:S2;
    apply chamber_count in S2; subst n2.
  - exists (h ++ s)%list, (S (S n)). split; [reflexivity | lia].
  - exists [], (S (S n)). split; [reflexivity | lia].
Qed.

Lemma sponsored_total (bioguide_id : pyval) (n : nat) :
  exists bills n', sponsored bioguide_id n = (Ok bills, n') /\ (n' = n \/ n' = S n).
Proof.
  unfold _get_member_sponsored_bills, m_try, bind, requests_get, lift, ret.
  destruct (negb (Py.truthy bioguide_id)); [eauto |].
  destruct (w n _) as [resp | e]; [| eauto].
  destruct (status_code resp =? 200)%Z; [| eauto].
  destruct (json resp) as [data | e]; [| eauto].
  destruct (Py.get data "sponsoredLegislation" (PList [])) as [bs | e]; [| eauto].
  destruct (Py.iter bs) as [items | e]; eauto.
Qed.

Lemma sponsored_loop_count (members : list pyval) (n n' : nat) (r : Result (list Bill)) :
  sponsored_all members n = (r, n') -> (n <= n' <= n + List.length members)%nat.
Proof.
  revert n n' r. induction members as [| m rest IH]; intros n n' r.
  - intro H; injection H as _ <-. cbn. lia.
  - cbn [sponsored_loop]. unfold bind at 1, lift at 1.
    destruct (Py.get m "bioguideId" (PStr EmptyString)) as [bid | e];
      [| intro H; injection H as _ <-; cbn; lia].
    unfold bind at 1.
    destruct (sponsored_total bid n) as (bs & n1 & -> & Hn).
    unfold bind at 1.
    destruct (sponsored_all rest n1) as [[all | e] n2] eqn:L;
      apply IH in L; intro H; injection H as _ <-; cbn [List.length]; lia.
Qed.

(** X7.  [search_bills_by_state] never raises, whatever the upstream and the
    sort do, and it sends at most twelve requests: two member listings and
    one listing of sponsored bills for each of at most ten members. *)
Theorem search_by_state_never_raises (state : string) (limit : Z) (n : nat) :
  exists bills n',
    search_bills_by_state datetime fromisoformat strptime_ymd strftime_ymd
      py_hash sort_by_updateDate_desc w state limit n = (Ok bills, n')
    /\ (n <= n' <= n + 12)%nat.
Proof.
  unfold search_bills_by_state, m_try. unfold bind at 1.
  destruct (members_total state n) as (ms & n1 & -> & Hm).
  unfold _get_mock_bills_by_state. rewrite format_all_ok.
  destruct ms as [| m ms']; [do 2 eexists; split; [reflexivity | lia] |].
  unfold bind at 1.
  destruct (sponsored_all (firstn 10 (m :: ms')) n1) as [[all | e] n2] eqn:L;
    apply sponsored_loop_count in L;
    pose proof (firstn_le_length 10 (m :: ms')) as F;
    assert (List.length (firstn 10 (m :: ms')) <= 10)%nat as F10
      by (rewrite length_firstn; lia).
  - unfold bind, lift, ret.
    destruct (sort_by_updateDate_desc all); do 2 eexists; (split; [reflexivity | lia]).
  - unfold lift. do 2 eexists. split; [reflexivity | lia].
Qed.

(** X8.  A state given by anything but two characters, which includes
    every full state name, is never looked up: [search_bills_by_state] sends
    no request and returns the two mock bills of the state. *)
Theorem search_by_state_full_name (state : string) (limit : Z) (n : nat) :
  PyStr.len state <> 2%nat ->
  search_state state limit n
    = (Ok (map canonical_of_raw (state_bills py_hash state)), n).
Proof.
  intro H. apply search_state_no_members.
  unfold _get_members_by_state, m_try.
  now rewrite (normalize_state_other_length state H).
Qed.

Lemma members_of_state_match (code : string) (items kept : list pyval) :
  members_of_state code items = Ok kept ->
  Forall (fun m => member_of code m = true) kept /\ incl kept items.
Proof.
  revert kept. induction items as [| m rest IH]; intros kept H.
  - injection H as <-. split; [constructor | apply incl_refl].
  - cbn [members_of_state] in H.
    destruct m as [| | | | | | d]; try discriminate.
    rewrite get_dict in H. cbn [rbind] in H.
    destruct (value_or "state" d (PStr EmptyString)) as [| | | | st | |] eqn:V;
      try discriminate.
    cbn [Py.upper rbind] in H.
    destruct (members_of_state code rest) as [k | e]; [| discriminate].
    cbn [rbind] in H. injection H as <-. destruct (IH k eq_refl) as [F I].
    destruct (PyStr.upper st =? PyStr.upper code) eqn:E.
    + split; [constructor; [| exact F] | now apply incl_cons; [left | apply incl_tl]].
      cbn [member_of]. now rewrite V.
    + split; [exact F | now apply incl_tl].
Qed.

Lemma chamber_match (chamber code : string) (n n' : nat) (ms : list pyval) :
  chamber_members w chamber code n = (Ok ms, n') ->
  Forall (fun m => member_of code m = true) ms.
Proof.
  unfold chamber_members, bind, requests_get, lift, ret.
  destruct (w n _) as [resp | e]; [| discriminate].
  destruct (status_code resp =? 200)%Z; [| intro H; injection H as <- _; constructor].
  destruct (json resp) as [data | e]; [| discriminate].
  destruct (Py.get data "members" (PList [])) as [all | e]; [| discriminate].
  destruct (Py.iter all) as [items | e]; [| discriminate].
  intro H. injection H as H _. now apply members_of_state_match in H.
Qed.

(** X9.  [_get_members_by_state] returns no member and sends no request
    when the state is not resolved; otherwise every member it returns is an
    object whose [state], upper-cased, is the resolved code. *)
Theorem members_by_state_match (state : string) (n n' : nat) (ms : list pyval) :
  _get_members_by_state w state n = (Ok ms, n') ->
  (_normalize_state state = None -> ms = [] /\ n' = n)
  /\ (forall code, _normalize_state state = Some code ->
        Forall (fun m => member_of code m = true) ms).
Proof.
  unfold _get_members_by_state, m_try.
  destruct (_normalize_state state) as [code |] eqn:N.
  2:{ intro H; injection H as <- <-. split; [auto | discriminate]. }
  intro H. split; [discriminate |]. intros c E; injection E as <-.
  destruct (code =? EmptyString); [injection H as <- _; constructor |].
  unfold bind at 1 in H.
  destruct (chamber_members w "house" code n) as [[h | e] n1] eqn:Hh;
    [| injection H as <- _; constructor].
  unfold bind at 1 in H.
  destruct (chamber_members w "senate" code n1) as [[s | e] n2] eqn:Hs;
    [| injection H as <- _; constructor].
  injection H as <- _. apply Forall_app. split.
  - now apply chamber_match in Hh.
  - now apply chamber_match in Hs.
Qed.

(** X10.  The two mock bills of a state are a House bill whose number lies
    between 1000 and 9999 and a Senate bill whose number lies between 100
    and 2099, whatever the hash function. *)
Theorem state_mock_number_ranges (state : string) :
  exists hr s zh zs,
    state_bills py_hash state = [hr; s]
    /\ raw_type hr = "HR" /\ raw_type s = "S"
    /\ raw_number hr = PyStr.of_Z zh /\ (1000 <= zh <= 9999)%Z
    /\ raw_number s = PyStr.of_Z zs /\ (100 <= zs <= 2099)%Z.
Proof.
  unfold state_bills. do 4 eexists.
  split; [reflexivity |]. cbn [raw_type raw_number].
  repeat split; try reflexivity.
  - pose proof (Z.mod_pos_bound (Z.abs (py_hash (mock_state_abbr state))) 9000). lia.
  - pose proof (Z.mod_pos_bound (Z.abs (py_hash (mock_state_abbr state))) 9000). lia.
  - pose proof (Z.mod_pos_bound (Z.abs (py_hash (mock_state_abbr state ++ "senate"))) 2000). lia.
  - pose proof (Z.mod_pos_bound (Z.abs (py_hash (mock_state_abbr state ++ "senate"))) 2000). lia.
Qed.

(** X18.  [_get_member_sponsored_bills] never raises and sends at most one
    request.  Without a bioguide id it sends none and returns no bill; when
    the request fails or is answered with a status other than 200 it
    returns no bill either. *)
Theorem member_sponsored_bills_never_raises (bioguide_id : pyval) (n : nat) :
  (exists bills n', sponsored bioguide_id n = (Ok bills, n') /\ (n' = n \/ n' = S n))
  /\ (Py.truthy bioguide_id = false -> sponsored bioguide_id n = (Ok [], n))
  /\ (Py.truthy bioguide_id = true ->
        (forall resp,
           w n (CONGRESS_API_BASE_URL ++ "/member/" ++ Py.str bioguide_id
                  ++ "/sponsored-legislation") = Ok resp ->
           status_code resp <> 200%Z ->
           sponsored bioguide_id n = (Ok [], S n))
        /\ (unreachable w -> sponsored bioguide_id n = (Ok [], S n))).
Proof.
  split; [apply sponsored_total | split].
  - intro F. unfold _get_member_sponsored_bills, m_try. now rewrite F.
  - intro T. unfold _get_member_sponsored_bills, m_try, bind, requests_get.
    rewrite T. cbn [negb]. split.
    + intros resp W S. rewrite W. apply Z.eqb_neq in S. now rewrite S.
    + intro U.
      destruct (U n (CONGRESS_API_BASE_URL ++ "/member/" ++ Py.str bioguide_id
                       ++ "/sponsored-legislation")) as [e ->].
      reflexivity.
Qed.

End StateExtras.

(** ** Summaries and sponsors *)

Lemma first_summary_source (d : list (string * pyval)) (fields : list string) (s : string) :
  first_summary (PDict d) fields = Ok s ->
  s = "No summary available"
  \/ exists field text,
       In field fields /\ Py.lookup field d = Some (PStr text)
       /\ s = PyStr.strip text.
Proof.
  induction fields as [| field rest IH]; cbn [first_summary].
  - intro H; injection H as <-. now left.
  - rewrite get_dict. cbn [rbind]. unfold value_or.
    destruct (Py.lookup field d) as [[| | | | text | |] |] eqn:L;
      try (intro H; destruct (IH H) as [-> | (f & t & I & Lf & ->)];
           [now left | right; exists f, t; repeat split; [now right | exact Lf]]).
    destruct (Py.truthy (PStr text) && negb (PyStr.strip text =? EmptyString)).
    + intro H; injection H as <-. right. exists field, text. repeat split; [now left | exact L].
    + intro H; destruct (IH H) as [-> | (f & t & I & Lf & ->)];
        [now left | right; exists f, t; repeat split; [now right | exact Lf]].
Qed.

(** X11.  On an object [_get_bill_summary] returns a string that is never
    empty: the placeholder, or the stripped text of one of the fields
    [summary], [latestSummary], [summary_short], [description].  A [summary]
    that is not blank wins over the other fields. *)
Theorem get_bill_summary_source (d : list (string * pyval)) :
  exists s,
    _get_bill_summary (PDict d) = Ok s
    /\ s <> EmptyString
    /\ (s = "No summary available"
        \/ exists field text,
             In field summary_fields /\ Py.lookup field d = Some (PStr text)
             /\ s = PyStr.strip text)
    /\ (forall text,
          Py.lookup "summary" d = Some (PStr text) ->
          PyStr.strip text <> EmptyString -> s = PyStr.strip text).
Proof.
  unfold _get_bill_summary.
  destruct (first_summary_ok d summary_fields) as (s & E & N).
  exists s. split; [exact E |]. split; [exact N |].
  split; [now apply first_summary_source with (1 := E) |].
  intros text L S. unfold summary_fields in E. cbn [first_summary] in E.
  rewrite get_dict in E. unfold value_or in E at 1. rewrite L in E. cbn [rbind] in E.
  assert (Py.truthy (PStr text) && negb (PyStr.strip text =? EmptyString) = true) as C.
  { apply andb_true_iff. split.
    - cbn. destruct text; [now contradiction S | reflexivity].
    - now apply negb_true_iff, String.eqb_neq. }
  rewrite C in E. now injection E.
Qed.

(** X12.  Only the first sponsor counts: two bills whose sponsor lists
    start with the same entry get the same sponsor text.  A first sponsor
    without last name gives "Unknown", even when a first name is there. *)
Theorem sponsor_first_only (d d' : list (string * pyval)) (first : pyval)
    (rest rest' : list pyval) :
  Py.lookup "sponsors" d = Some (PList (first :: rest)) ->
  Py.lookup "sponsors" d' = Some (PList (first :: rest')) ->
  _get_sponsor_info_from_bill (PDict d) = _get_sponsor_info_from_bill (PDict d')
  /\ (forall sp, first = PDict sp ->
        Py.truthy (value_or "lastName" sp (PStr EmptyString)) = false ->
        _get_sponsor_info_from_bill (PDict d) = Ok "Unknown").
Proof.
  intros L L'. unfold _get_sponsor_info_from_bill.
  rewrite !get_dict. unfold value_or. rewrite L, L'.
  cbn [rbind Py.truthy PyMore.len List.length Nat.ltb Nat.leb PyMore.index0].
  split; [reflexivity |].
  intros sp -> F. rewrite !get_dict. cbn [rbind]. unfold value_or.
  rewrite F. now rewrite andb_false_r.
Qed.

(** ** Requests of the enrichment *)

(** X13.  [get_llm_summary] sends at most one request, and none at all
    when no credential is configured or when the text cannot be sliced. *)
Theorem enrichment_requests (key : option string) (w : World) (bill_text : pyval)
    (topic : string) (n n' : nat) (r : Result pyval) :
  get_llm_summary key w bill_text topic n = (r, n') ->
  (n' = n \/ n' = S n)
  /\ (key_configured key = false -> n' = n)
  /\ (forall e, slice_1000 bill_text = Raise e -> n' = n).
Proof.
  unfold get_llm_summary, m_try, requests_post.
  destruct (key_configured key); cbn [negb].
  2:{ intro H; injection H as _ <-. auto. }
  unfold bind at 1, lift at 1.
  destruct (slice_1000 bill_text) as [excerpt | e].
  2:{ intro H; injection H as _ <-. auto. }
  unfold bind at 1.
  assert (forall x : Result pyval * nat, snd x = S n ->
            x = (r, n') -> (n' = n \/ n' = S n) /\ (true = false -> n' = n)
            /\ (forall e, Ok excerpt = Raise e -> n' = n)) as K.
  { intros x Hx ->. cbn in Hx. subst. repeat split; [now right | discriminate | discriminate]. }
  destruct (w n HUGGINGFACE_API_URL) as [resp | e]; [| apply K; reflexivity].
  destruct (status_code resp =? 200)%Z; [| apply K; reflexivity].
  unfold bind, lift, ret.
  destruct (json resp) as [[| | | | | [| first rest] |] | e]; try (apply K; reflexivity).
  destruct (Py.get first "summary_text" _); apply K; reflexivity.
Qed.

(** ** What the export accepts *)

Lemma write_rows_inv (items : list pyval) (written rows : list (list pyval)) :
  write_rows items written = Ok rows ->
  exists bills, items = map PDict bills /\ rows = (written ++ map export_row bills)%list.
Proof.
  revert written rows. induction items as [| item rest IH]; intros written rows H.
  - injection H as <-. exists []. now rewrite app_nil_r.
  - cbn [write_rows] in H.
    destruct item as [| | | | | | d]; try discriminate.
    rewrite csv_row_dict in H. cbn [rbind] in H.
    apply IH in H as (bills & -> & ->).
    exists (d :: bills). now rewrite <- app_assoc.
Qed.

Lemma chars_nonempty (c : ascii) (t : string) : PyStr.chars (String c t) <> [].
Proof.
  destruct t as [| d t]; cbn [PyStr.chars]; [discriminate |].
  destruct (PyStr.is_continuation d); [| discriminate].
  destruct (match t with EmptyString => _ | String _ _ => _ end); discriminate.
Qed.

(** X14.  [api_export] produces a file only for a request whose [bills]
    is a non-empty list of objects: then the file has the header and one
    row per bill, each row seven cells wide.  Every other request is
    answered with an error. *)
Theorem export_only_objects (data : pyval) (rows : list (list pyval)) :
  api_export data = CsvFile rows ->
  exists d bills,
    data = PDict d /\ bills <> []
    /\ Py.lookup "bills" d = Some (PList (map PDict bills))
    /\ rows = csv_header :: map export_row bills
    /\ List.length rows = S (List.length bills)
    /\ Forall (fun row => List.length row = 7%nat) rows.
Proof.
  unfold api_export, try_except.
  destruct data as [| | | | | | d]; try discriminate.
  rewrite get_dict. cbn [rbind]. unfold value_or.
  destruct (Py.lookup "bills" d) as [bills |] eqn:L; [| discriminate].
  destruct (Py.truthy bills) eqn:T; cbn [negb]; [| discriminate].
  destruct (Py.iter bills) as [items | e] eqn:I; [| discriminate]. cbn [rbind].
  destruct (write_rows items [csv_header]) as [rs | e] eqn:Wr; [| discriminate].
  cbn [rbind]. unfold make_response.
  destruct (forallb (forallb cell_encodable) rs); [| discriminate].
  intro H; injection H as <-.
  apply write_rows_inv in Wr as (bs & -> & ->).
  destruct bills as [| | | | t | l | o]; try discriminate.
  - cbn [Py.iter] in I. injection I as I. destruct t as [| c t]; [discriminate |].
    destruct (PyStr.chars (String c t)) eqn:C; [now apply chars_nonempty in C |].
    destruct bs; discriminate.
  - cbn [Py.iter] in I. injection I as ->.
    exists d, bs. split; [reflexivity |]. split; [intros ->; discriminate |].
    split; [exact L |]. split; [reflexivity |]. split.
    + cbn [app List.length]. f_equal. apply length_map.
    + constructor; [reflexivity |]. apply Forall_map, Forall_forall. reflexivity.
  - cbn [Py.iter] in I. injection I as I. destruct o as [| [k v] o]; [discriminate |].
    destruct bs; discriminate.
Qed.

(** ** The search endpoint *)

Section EndpointExtras.
Variable datetime : Type.
Variable fromisoformat : string -> Result datetime.
Variable strptime_ymd : string -> Result datetime.
Variable strftime_ymd : datetime -> string.
Variable py_hash : string -> Z.
Variable sort_by_updateDate_desc : list Bill -> Result (list Bill).
Variable HUGGINGFACE_API_KEY : option string.
Variable w : World.

Local Abbreviation search_state :=
  (search_bills_by_state datetime fromisoformat strptime_ymd strftime_ymd
     py_hash sort_by_updateDate_desc w).
Local Abbreviation search :=
  (search_bills_by_keyword datetime fromisoformat strptime_ymd strftime_ymd w).
Local Abbreviation summarize := (get_llm_summary HUGGINGFACE_API_KEY w).
Local Abbreviation attach := (attach_summaries HUGGINGFACE_API_KEY w).
Local Abbreviation endpoint :=
  (api_search datetime fromisoformat strptime_ymd strftime_ymd py_hash
     sort_by_updateDate_desc HUGGINGFACE_API_KEY w).

Local Abbreviation chosen :=
  (chosen_search datetime fromisoformat strptime_ymd strftime_ymd py_hash
     sort_by_updateDate_desc w).

Lemma search_total (keyword : string) (limit : Z) (n : nat) :
  exists bills n', search keyword limit n = (Ok bills, n').
Proof.
  unfold search_bills_by_keyword, m_try.
  destruct (search_body _ _ _ _ w keyword limit n) as [[bills | e] n1]; [eauto |].
  unfold lift. rewrite get_mock_bills_eq. destruct e; eauto.
Qed.

Lemma search_state_total (state : string) (limit : Z) (n : nat) :
  exists bills n', search_state state limit n = (Ok bills, n').
Proof.
  unfold search_bills_by_state, m_try.
  match goal with |- context [match ?b n with _ => _ end] =>
    destruct (b n) as [[bills | e] n1] end; [eauto |].
  unfold lift, _get_mock_bills_by_state. rewrite format_all_ok. eauto.
Qed.

Lemma chosen_total (search_type : pyval) (query : string) (n : nat) :
  exists bills n', chosen search_type query n = (Ok bills, n').
Proof.
  unfold chosen_search. destruct (PyMore.eq_str search_type "state");
    [apply search_state_total | apply search_total].
Qed.

Lemma summarize_total (bill_text : pyval) (topic : string) (n : nat) :
  exists v n', summarize bill_text topic n = (Ok v, n').
Proof.
  unfold get_llm_summary, m_try.
  match goal with |- context [match ?b n with _ => _ end] =>
    destruct (b n) as [[v | e] n1] end; unfold ret; eauto.
Qed.

Lemma summarize_no_key (bill_text : pyval) (topic : string) (n : nat) :
  key_configured HUGGINGFACE_API_KEY = false ->
  summarize bill_text topic n = (Ok (PStr (no_key_summary topic)), n).
Proof. intro K. unfold get_llm_summary, m_try. now rewrite K. Qed.

Lemma attach_total (bills : list Bill) (query : string) (n : nat) :
  exists annotated n',
    attach bills query n = (Ok annotated, n')
    /\ map fst annotated = bills
    /\ Forall (fun p => snd p <> None) annotated.
Proof.
  revert n. induction bills as [| b rest IH]; intro n.
  - exists [], n. repeat split. constructor.
  - cbn [attach_summaries]. unfold bind at 1.
    destruct (summarize_total (summary b) query n) as (v & n1 & ->).
    unfold bind at 1. destruct (IH n1) as (ann & n2 & -> & Hm & Hf).
    exists ((b, Some v) :: ann), n2. split; [reflexivity |]. split.
    + cbn. now rewrite Hm.
    + constructor; [discriminate | exact Hf].
Qed.

Lemma attach_no_key (bills : list Bill) (query : string) (n : nat) :
  key_configured HUGGINGFACE_API_KEY = false ->
  attach bills query n
    = (Ok (map (fun b => (b, Some (PStr (no_key_summary query)))) bills), n).
Proof.
  intro K. induction bills as [| b rest IH]; [reflexivity |].
  cbn [attach_summaries]. unfold bind at 1. rewrite (summarize_no_key _ _ _ K).
  unfold bind at 1. now rewrite IH.
Qed.

(** How a request with a usable query is answered. *)
Lemma endpoint_runs (d : list (string * pyval)) (q : string) (n : nat) :
  value_or "query" d (PStr EmptyString) = PStr q ->
  PyStr.strip q <> EmptyString ->
  exists bills n1 annotated n',
    chosen (value_or "type" d (PStr "keyword")) (PyStr.strip q) n = (Ok bills, n1)
    /\ (if Py.truthy (value_or "include_ai" d (PBool false))
        then attach bills (PyStr.strip q)
        else ret (map (fun bill => (bill, None)) bills)) n1 = (Ok annotated, n')
    /\ map fst annotated = bills
    /\ endpoint (PDict d) n
       = (Ok (SearchOk {| res_bills := annotated;
                          res_count := List.length bills;
                          res_query := PyStr.strip q;
                          res_search_type := value_or "type" d (PStr "keyword") |}), n').
Proof.
  intros Q S. apply String.eqb_neq in S.
  destruct (chosen_total (value_or "type" d (PStr "keyword")) (PyStr.strip q) n)
    as (bills & n1 & C).
  assert (exists annotated n',
            (if Py.truthy (value_or "include_ai" d (PBool false))
             then attach bills (PyStr.strip q)
             else ret (map (fun bill => (bill, None)) bills)) n1 = (Ok annotated, n')
            /\ map fst annotated = bills) as (annotated & n' & A & Hm).
  { destruct (Py.truthy (value_or "include_ai" d (PBool false))).
    - destruct (attach_total bills (PyStr.strip q) n1) as (ann & n2 & E & Hm & _). eauto.
    - do 2 eexists. split; [reflexivity |]. rewrite map_map. cbn. apply map_id. }
  exists bills, n1, annotated, n'. split; [exact C |]. split; [exact A |].
  split; [exact Hm |].
  unfold api_search, m_try. rewrite !get_dict. unfold bind at 1, lift at 1.
  rewrite Q. unfold bind at 1, lift at 1. cbn [strip_method].
  unfold bind at 1, lift at 1. rewrite S.
  unfold chosen_search in C. unfold bind at 1. rewrite C.
  unfold bind at 1, lift at 1. unfold bind at 1. rewrite A. reflexivity.
Qed.

Lemma api_search_blank_query_aux (d : list (string * pyval)) (q : string) (n : nat) :
  value_or "query" d (PStr EmptyString) = PStr q ->
  PyStr.strip q = EmptyString ->
  endpoint (PDict d) n = (Ok (SearchError 400 "Query parameter is required"), n).
Proof.
  intros Q S. unfold api_search, m_try. rewrite !get_dict.
  unfold bind at 1, lift at 1. rewrite Q. unfold bind at 1, lift at 1.
  cbn [strip_method]. unfold bind at 1, lift at 1. rewrite S. reflexivity.
Qed.

(** X15.  [api_search] validates before it searches: a blank query is
    answered with status 400, and a body that is not an object or whose
    query is not a string with status 500; in both cases no request is
    sent. *)
Theorem api_search_rejects (data : pyval) (n : nat) :
  (forall d q,
     data = PDict d -> value_or "query" d (PStr EmptyString) = PStr q ->
     PyStr.strip q = EmptyString ->
     endpoint data n = (Ok (SearchError 400 "Query parameter is required"), n))
  /\ (forall d,
        data = PDict d ->
        PyMore.is_str (value_or "query" d (PStr EmptyString)) = false ->
        endpoint data n
          = (Ok (SearchError 500 "An error occurred while searching for bills"), n))
  /\ ((forall d, data <> PDict d) ->
        endpoint data n
          = (Ok (SearchError 500 "An error occurred while searching for bills"), n)).
Proof.
  split; [| split].
  - intros d q -> Q S. now apply api_search_blank_query_aux with q.
  - intros d -> Q. unfold api_search, m_try. rewrite !get_dict.
    unfold bind at 1, lift at 1.
    destruct (value_or "query" d (PStr EmptyString)); try discriminate; reflexivity.
  - intro N. unfold api_search, m_try.
    destruct data; try reflexivity. now contradiction (N d).
Qed.

(** X16.  A request whose query is a string that is not blank is answered
    with status 200: the search named by [type] ("state", or else the
    keyword search) runs on the stripped query, its bills come back in
    order, [count] is their number, and [query] is the stripped query. *)
Theorem api_search_answers (d : list (string * pyval)) (q : string) (n : nat) :
  value_or "query" d (PStr EmptyString) = PStr q ->
  PyStr.strip q <> EmptyString ->
  exists body bills n1 n',
    endpoint (PDict d) n = (Ok (SearchOk body), n')
    /\ chosen (value_or "type" d (PStr "keyword")) (PyStr.strip q) n = (Ok bills, n1)
    /\ map fst (res_bills body) = bills
    /\ res_count body = List.length (res_bills body)
    /\ res_query body = PyStr.strip q
    /\ res_search_type body = value_or "type" d (PStr "keyword").
Proof.
  intros Q S.
  destruct (endpoint_runs d q n Q S) as (bills & n1 & annotated & n' & C & _ & Hm & E).
  eexists. exists bills, n1, n'. split; [exact E |]. split; [exact C |].
  cbn. repeat split; [exact Hm |]. now rewrite <- Hm, length_map.
Qed.

(** X17.  In a 200 answer no bill carries an [ai_summary] unless
    [include_ai] is set; when it is set every bill carries one, and without
    a credential that summary is the "API key required" text, which mentions
    the query. *)
Theorem api_search_ai_summaries (d : list (string * pyval)) (q : string) (n n' : nat)
    (body : SearchResult) :
  value_or "query" d (PStr EmptyString) = PStr q ->
  endpoint (PDict d) n = (Ok (SearchOk body), n') ->
  (Py.truthy (value_or "include_ai" d (PBool false)) = false ->
     Forall (fun p => snd p = None) (res_bills body))
  /\ (Py.truthy (value_or "include_ai" d (PBool false)) = true ->
        Forall (fun p => snd p <> None) (res_bills body)
        /\ (key_configured HUGGINGFACE_API_KEY = false ->
              Forall (fun p => snd p = Some (PStr (no_key_summary (PyStr.strip q))))
                (res_bills body)
              /\ PyStr.contains (PyStr.strip q) (no_key_summary (PyStr.strip q)) = true)).
Proof.
  intros Q E.
  destruct (String.eqb_spec (PyStr.strip q) EmptyString) as [B | S].
  { rewrite (api_search_blank_query_aux d q n Q B) in E. discriminate. }
  destruct (endpoint_runs d q n Q S) as (bills & n1 & annotated & n2 & C & A & Hm & E').
  rewrite E' in E. injection E as <- <-. cbn [res_bills].
  split.
  - intro F. rewrite F in A. injection A as <- _.
    apply Forall_map, Forall_forall. reflexivity.
  - intro T. rewrite T in A. split.
    + destruct (attach_total bills (PyStr.strip q) n1) as (ann & n3 & E2 & _ & Hf).
      rewrite E2 in A. now injection A as <- _.
    + intro K. rewrite (attach_no_key bills (PyStr.strip q) n1 K) in A.
      injection A as <- _. split.
      * apply Forall_map, Forall_forall. reflexivity.
      * unfold no_key_summary. apply contains_middle.
Qed.

End EndpointExtras.

End Properties.

(** * Concrete runs *)

Section Runs.

#[local] Existing Instance plain.

Lemma normalize_state_unrecognized_witness : _normalize_state "Atlantis" = None.
Proof.
  apply (proj1 normalize_state_unrecognized). vm_compute. lia.
Defined.

Lemma generate_congress_url_total_witness :
  _generate_congress_url (PStr "hr") (PStr "3421")
    = Ok "https://www.congress.gov/bill/118th-congress/house-bill/3421"
  /\ url_type_of (PyStr.upper "amdt") = "bill".
Proof.
  split.
  - exact (proj1 (generate_congress_url_total "hr" (PStr "3421"))).
  - apply (proj2 (proj2 (proj2 (proj2 (generate_congress_url_total "amdt" PNone))))).
    vm_compute. intuition discriminate.
Defined.



Lemma healthcare_search_unreachable_witness :
  exists b1 b2,
    fst (search_bills_by_keyword unit (fun _ => Ok tt) (fun _ => Ok tt)
           (fun _ => "2024-01-01") down "healthcare" 20 0) = Ok [b1; b2]
    /\ id b1 = "HR3421" /\ id b2 = "S1247".
Proof.
  destruct (healthcare_search_unreachable unit (fun _ => Ok tt) (fun _ => Ok tt)
              (fun _ => "2024-01-01") down 20 0)
    as (b1 & b2 & H & _ & I1 & I2 & _).
  - intros k url. exists RequestException. reflexivity.
  - exists b1, b2. auto.
Defined.

Lemma state_mock_deterministic_witness :
  exists hr s,
    fst (search_bills_by_state unit (fun _ => Ok tt) (fun _ => Ok tt)
           (fun _ => "2024-01-01") length_hash (fun l => Ok l) down "Texas" 20 0)
      = Ok [hr; s]
    /\ number hr = PStr "1005" /\ number s = PStr "111".
Proof.
  destruct (state_mock_deterministic unit (fun _ => Ok tt) (fun _ => Ok tt)
              (fun _ => "2024-01-01") length_hash (fun l => Ok l) down "Texas" 20 20 0)
    as (hr & s & H1 & _ & _ & _ & N1 & N2 & _).
  - intros k url. exists RequestException. reflexivity.
  - exists hr, s. repeat split; [exact H1 | exact N1 | exact N2].
Defined.

Lemma export_rows_in_order_witness :
  api_export (PDict [("bills", PList [])]) = JsonError 400 "No bills to export"
  /\ api_export (PDict [("bills", PList [PDict [("id", PStr "HR1"); ("title", PStr "A, B")]])])
     = CsvFile [ [ PStr "Bill ID"; PStr "Title"; PStr "Summary";
                   PStr "Introduced Date"; PStr "Sponsor"; PStr "Type";
                   PStr "Congress URL" ];
                 [ PStr "HR1"; PStr "A, B"; PStr EmptyString; PStr EmptyString;
                   PStr EmptyString; PStr EmptyString; PStr EmptyString ] ].
Proof.
  split.
  - apply (proj1 (export_rows_in_order [("bills", PList [])])). right. reflexivity.
  - apply (proj1 (proj2 (export_rows_in_order
                           [("bills", PList [PDict [("id", PStr "HR1"); ("title", PStr "A, B")]])]))
             [("id", PStr "HR1"); ("title", PStr "A, B")]); reflexivity.
Defined.

Lemma enrichment_never_raises_witness :
  exists v n',
    get_llm_summary (Some "hf_token") down (PStr "A bill.") "climate" 0 = (Ok v, n')
    /\ v = PStr "AI summary unavailable. This bill relates to climate and may have regulatory implications.".
Proof.
  destruct (enrichment_never_raises (Some "hf_token") down (PStr "A bill.") "climate" 0)
    as (v & n' & H & _ & R & _).
  exists v, n'. split; [exact H |]. apply R; reflexivity.
Defined.


Lemma normalize_state_case_witness :
  _normalize_state (PyStr.upper "tx") = _normalize_state "tx"
  /\ _normalize_state "TX" = Some "TX".
Proof.
  split.
  - apply (proj1 (normalize_state_case "tx")). reflexivity.
  - apply (proj2 (normalize_state_case "tx") "TX"). reflexivity.
Defined.

Lemma filter_bills_by_keyword_spec_witness :
  _filter_bills_by_keyword
    (PList [ PDict [("title", PStr "Clean Water Act")];
             PDict [("title", PStr "Tax Relief")];
             PDict [] ]) "WATER"
  = Ok [PDict [("title", PStr "Clean Water Act")]].
Proof.
  apply (proj1 (filter_bills_by_keyword_spec
                  [ PDict [("title", PStr "Clean Water Act")];
                    PDict [("title", PStr "Tax Relief")];
                    PDict [] ] "WATER" eq_refl)).
Defined.

Lemma get_bill_summary_source_witness :
  _get_bill_summary (PDict [("summary", PStr "  "); ("description", PStr " Roads. ")])
  = Ok "Roads.".
Proof.
  destruct (get_bill_summary_source [("summary", PStr "  "); ("description", PStr " Roads. ")])
    as (s & E & _).
  rewrite E. f_equal. vm_compute in E. now injection E.
Defined.

Lemma sponsor_first_only_witness :
  _get_sponsor_info_from_bill
    (PDict [("sponsors", PList [PDict [("firstName", PStr "Ann")]; PDict []])])
  = Ok "Unknown".
Proof.
  apply (proj2 (sponsor_first_only
                  [("sponsors", PList [PDict [("firstName", PStr "Ann")]; PDict []])]
                  [("sponsors", PList [PDict [("firstName", PStr "Ann")]])]
                  (PDict [("firstName", PStr "Ann")]) [PDict []] [] eq_refl eq_refl)
           [("firstName", PStr "Ann")] eq_refl).
  reflexivity.
Defined.

Lemma enrichment_requests_witness :
  snd (get_llm_summary None (answers PNone) (PStr "A bill.") "climate" 7) = 7%nat.
Proof.
  apply (proj1 (proj2 (enrichment_requests None (answers PNone) (PStr "A bill.")
                         "climate" 7 _ _ (surjective_pairing _)))).
  reflexivity.
Defined.

Lemma export_only_objects_witness :
  exists d bills,
    Py.lookup "bills" d = Some (PList (map PDict bills)) /\ List.length bills = 1%nat.
Proof.
  destruct (export_only_objects (PDict [("bills", PList [PDict [("id", PStr "HR1")]])])
              _ eq_refl) as (d & bills & _ & _ & L & _ & Len & _).
  exists d, bills. split; [exact L |]. cbn in Len. now injection Len.
Defined.

Lemma malformed_listing_gives_mock_witness :
  search_bills_by_keyword unit (fun _ => Ok tt) (fun _ => Ok tt) (fun _ => "2024-01-01")
    (answers malformed_listing) "tax" 20 0
  = (_get_mock_bills "tax", 1%nat).
Proof.
  apply (malformed_listing_gives_mock unit (fun _ => Ok tt) (fun _ => Ok tt)
           (fun _ => "2024-01-01") (answers malformed_listing) "tax" 20 0
           (mkResponse 200 (Ok malformed_listing))
           [("bills", PList [PDict [("title", PStr "Tax Act")]; PInt 5])]
           [PDict [("title", PStr "Tax Act")]; PInt 5]);
    reflexivity.
Defined.

Lemma get_bill_details_never_raises_witness :
  exists n',
    _get_bill_details unit (fun _ => Ok tt) (fun _ => Ok tt) (fun _ => "2024-01-01")
      down (PDict [("type", PStr "hr"); ("number", PStr "1")]) 0
    = (Ok (_format_basic_bill unit (fun _ => Ok tt) (fun _ => Ok tt)
             (fun _ => "2024-01-01") (PDict [("type", PStr "hr"); ("number", PStr "1")])),
       n').
Proof.
  apply (proj2 (proj2 (get_bill_details_never_raises unit (fun _ => Ok tt)
                         (fun _ => Ok tt) (fun _ => "2024-01-01") down
                         (PDict [("type", PStr "hr"); ("number", PStr "1")]) 0))).
  intros k url. exists RequestException. reflexivity.
Defined.

Lemma search_by_keyword_bounds_witness :
  (1 <= snd (search_bills_by_keyword unit (fun _ => Ok tt) (fun _ => Ok tt)
               (fun _ => "2024-01-01") (answers null_title_body) "healthcare" 1 0)
     <= 2)%nat.
Proof.
  assert (0 <= 1)%Z as L by lia.
  exact (proj2 (search_by_keyword_bounds unit (fun _ => Ok tt) (fun _ => Ok tt)
                  (fun _ => "2024-01-01") (answers null_title_body) "healthcare" 1 0 L)
           _ _ (surjective_pairing _)).
Defined.

Lemma search_by_keyword_consistent_witness :
  exists b,
    search_bills_by_keyword unit (fun _ => Ok tt) (fun _ => Ok tt)
      (fun _ => "2024-01-01") (answers null_title_body) "healthcare" 20 0
      = (Ok [b], 2%nat)
    /\ consistent b.
Proof.
  eexists. split; [reflexivity |].
  pose proof (search_by_keyword_consistent unit (fun _ => Ok tt) (fun _ => Ok tt)
                (fun _ => "2024-01-01") (answers null_title_body) "healthcare" 20 0 2
                _ eq_refl) as F.
  inversion F; assumption.
Defined.

Lemma search_by_state_full_name_witness :
  search_bills_by_state unit (fun _ => Ok tt) (fun _ => Ok tt) (fun _ => "2024-01-01")
    length_hash (fun l => Ok l) (answers members_body) "Texas" 20 0
  = (Ok (map canonical_of_raw (state_bills length_hash "Texas")), 0%nat).
Proof.
  apply (search_by_state_full_name unit (fun _ => Ok tt) (fun _ => Ok tt)
           (fun _ => "2024-01-01") length_hash (fun l => Ok l)
           (answers members_body) "Texas" 20 0).
  vm_compute. lia.
Defined.

Lemma members_by_state_match_witness :
  exists ms,
    _get_members_by_state (answers members_body) "tx" 0 = (Ok ms, 2%nat)
    /\ List.length ms = 2%nat
    /\ Forall (fun m => member_of "TX" m = true) ms.
Proof.
  eexists. split; [reflexivity |]. split; [reflexivity |].
  apply (proj2 (members_by_state_match (answers members_body) "tx" 0 2 _ eq_refl) "TX").
  reflexivity.
Defined.

Lemma member_sponsored_bills_never_raises_witness :
  _get_member_sponsored_bills unit (fun _ => Ok tt) (fun _ => Ok tt)
    (fun _ => "2024-01-01") down (PStr EmptyString) 3
  = (Ok [], 3%nat).
Proof.
  apply (proj1 (proj2 (member_sponsored_bills_never_raises unit (fun _ => Ok tt)
                         (fun _ => Ok tt) (fun _ => "2024-01-01") down
                         (PStr EmptyString) 3))).
  reflexivity.
Defined.

Lemma api_search_rejects_witness :
  api_search unit (fun _ => Ok tt) (fun _ => Ok tt) (fun _ => "2024-01-01")
    length_hash (fun l => Ok l) None down (PDict [("query", PStr "   ")]) 0
  = (Ok (SearchError 400 "Query parameter is required"), 0%nat).
Proof.
  apply (proj1 (api_search_rejects unit (fun _ => Ok tt) (fun _ => Ok tt)
                  (fun _ => "2024-01-01") length_hash (fun l => Ok l) None down
                  (PDict [("query", PStr "   ")]) 0)
           [("query", PStr "   ")] "   "); reflexivity.
Defined.

Lemma api_search_answers_witness :
  exists body n',
    api_search unit (fun _ => Ok tt) (fun _ => Ok tt) (fun _ => "2024-01-01")
      length_hash (fun l => Ok l) None down ai_request 0
    = (Ok (SearchOk body), n')
    /\ res_count body = 2%nat /\ res_query body = "climate".
Proof.
  destruct (api_search_answers unit (fun _ => Ok tt) (fun _ => Ok tt)
              (fun _ => "2024-01-01") length_hash (fun l => Ok l) None down
              [("query", PStr " climate "); ("include_ai", PBool true)] " climate " 0
              eq_refl)
    as (body & bills & n1 & n' & E & C & M & Cn & Q & _).
  - discriminate.
  - exists body, n'. split; [exact E |]. split; [| exact Q].
    rewrite Cn, <- (length_map fst), M.
    vm_compute in C. injection C as <- _. reflexivity.
Defined.

Lemma api_search_ai_summaries_witness :
  exists body n',
    api_search unit (fun _ => Ok tt) (fun _ => Ok tt) (fun _ => "2024-01-01")
      length_hash (fun l => Ok l) None down ai_request 0
    = (Ok (SearchOk body), n')
    /\ Forall (fun p => snd p
                = Some (PStr "AI Summary not available (API key required). This bill relates to climate."))
         (res_bills body).
Proof.
  do 2 eexists. split; [reflexivity |].
  refine (proj1 (proj2 (proj2 (api_search_ai_summaries unit (fun _ => Ok tt)
                                 (fun _ => Ok tt) (fun _ => "2024-01-01") length_hash
                                 (fun l => Ok l) None down
                                 [("query", PStr " climate "); ("include_ai", PBool true)]
                                 " climate " 0 _ _ eq_refl eq_refl)
                          eq_refl) eq_refl)).
Defined.


(** C7 as stated fails on the code: with a credential and an answer of
    status 200 whose first element carries an empty [summary_text], the
    result is the empty string; and on the answer [[{}]], a list whose
    object lacks [summary_text], the result is "Summary not available",
    which is none of the canned texts and does not mention the topic. *)
Lemma enrichment_empty_result :
  get_llm_summary (Some "hf_token")
      (answers (PList [PDict [("summary_text", PStr EmptyString)]]))
      (PStr "A bill.") "climate" 0
    = (Ok (PStr EmptyString), 1%nat)
  /\ get_llm_summary (Some "hf_token") (answers (PList [PDict []]))
       (PStr "A bill.") "climate" 0
     = (Ok (PStr "Summary not available"), 1%nat)
  /\ PyStr.contains "climate" "Summary not available" = false.
Proof. repeat split. Qed.


(** C6 as stated fails on the code: a single bill whose title holds a
    surrogate code point is not exported as a header row and a data row; the
    text cannot be encoded, and the answer is status 500. *)
Lemma export_surrogate_rejected :
  api_export (PDict [("bills",
                      PList [PDict [("id", PStr "HR1"); ("title", PStr lone_surrogate)]])])
  = JsonError 500 "An error occurred while exporting data".
Proof. reflexivity. Qed.

End Runs.
